(** * ExplainX: call tracing, explanation chain and report rendering

    A shallow embedding of [backend/explainx.py] (the [explainX] decorator and
    the global [TRACE] store) and of [backend/llm.py] (prompt builder, remote
    providers, fallback explanation, report builder).

    Python state is threaded explicitly.  Trace records are Python dicts that
    the code mutates in place ([trace["explanation"] = ...]) and that are
    shared between the store, the batches handed to the explanation pass and
    the [inputs] of later records; they therefore live in a heap and are
    passed around as references. *)

From Stdlib Require Import String Ascii ZArith List Bool Lia Floats.
From stdpp Require Import base tactics option list strings pretty.
Import ListNotations.
Open Scope Z_scope.

(** ** Python values *)

(** A location in the heap of trace dicts. *)
Abbreviation loc := nat (only parsing).

(** The values that flow through the tracer.  [PObj] stands for any object
    outside the JSON types (a set, bytes, a class instance), kept by what the
    code can observe of it; [PRef] is a reference to a trace dict in the heap.
    Lists and dicts other than trace dicts are never mutated by the code under
    study and are modelled by value; dict keys are strings. *)
Record pyobj : Type := {
  obj_class : string;   (* type(o).__name__ *)
  obj_repr : string;    (* repr(o) *)
  obj_str : string;     (* str(o) *)
  obj_truth : bool      (* bool(o) *)
}.

#[local] Unset Elimination Schemes.
Inductive pyval : Type :=
| PNone
| PBool (b : bool)
| PInt (z : Z)
| PFloat (f : float)
| PStr (s : string)
| PList (l : list pyval)
| PDict (kv : list (string * pyval))
| PObj (o : pyobj)
| PRef (l : loc).
#[local] Set Elimination Schemes.

Definition dict := list (string * pyval).

(** A raised exception: class name and message. *)
Inductive exn : Type := Exn (cls msg : string).

Inductive result (A : Type) : Type :=
| Ok (a : A)
| Raise (e : exn).
Arguments Ok {A} a.
Arguments Raise {A} e.

(** ** Ordered dicts: insertion order is kept, assignment to an existing key
    keeps its position *)

Fixpoint dict_get {A : Type} (k : string) (d : list (string * A)) : option A :=
  match d with
  | [] => None
  | (k', v) :: d' => if String.eqb k' k then Some v else dict_get k d'
  end.

Fixpoint dict_set {A : Type} (k : string) (v : A) (d : list (string * A))
  : list (string * A) :=
  match d with
  | [] => [(k, v)]
  | (k', v') :: d' =>
      if String.eqb k' k then (k', v) :: d' else (k', v') :: dict_set k v d'
  end.

(** [d.update(kw)] *)
Definition dict_update {A : Type} (d kw : list (string * A)) : list (string * A) :=
  fold_left (fun acc kv => dict_set (fst kv) (snd kv) acc) kw d.

Definition dict_keys {A : Type} (d : list (string * A)) : list string := map fst d.

(** ** Trace records and the world *)

(** The dict appended by [wrapper], one field per key. *)
Record trace : Type := {
  function : string;
  file : string;
  inputs : dict;
  output : pyval;
  code : string;
  start_time : string;
  end_time : string;
  duration_ms : float;
  explanation : pyval
}.

Definition set_explanation (e : pyval) (t : trace) : trace :=
  {| function := function t; file := file t; inputs := inputs t;
     output := output t; code := code t; start_time := start_time t;
     end_time := end_time t; duration_ms := duration_ms t; explanation := e |}.

(** One [client.post] call of [httpx.AsyncClient(timeout=...)]. *)
Record request : Type := {
  req_url : string;
  req_timeout : float;
  req_headers : list (string * string);
  req_json : pyval
}.

(** What one [client.post] does: it raises an exception (connection error,
    timeout), or
    returns a response with a status code and the outcome of
    [response.json()], the parsed body or the exception for a body that is
    not JSON. *)
Inductive http_result : Type :=
| HttpRaise (e : exn)
| HttpResponse (status_code : Z) (json : result pyval).

Record world : Type := {
  heap : list trace;        (* the trace dicts allocated so far *)
  TRACE : list loc;         (* the global TRACE list *)
  ticks : nat;              (* number of datetime.now() readings so far *)
  net_log : list request    (* the requests posted so far, oldest first *)
}.

(** ** Computations: a state and exception monad over the world.  A raised
    exception keeps the effects that happened before it. *)

Definition M (A : Type) : Type := world -> result A * world.

Definition ret {A : Type} (a : A) : M A := fun w => (Ok a, w).

Definition raise {A : Type} (e : exn) : M A := fun w => (Raise e, w).

Definition bind {A B : Type} (m : M A) (k : A -> M B) : M B :=
  fun w => match m w with
           | (Ok a, w') => k a w'
           | (Raise e, w') => (Raise e, w')
           end.

Notation "'do' x <- c1 ; c2" := (bind c1 (fun x => c2))
  (at level 10, x name, c1 at level 100, c2 at level 200).
Notation "'run' c1 ; c2" := (bind c1 (fun _ => c2))
  (at level 10, c1 at level 100, c2 at level 200).

Definition lift {A : Type} (r : result A) : M A :=
  match r with Ok a => ret a | Raise e => raise e end.

(** ** Python library functions the code calls

    The float renderings, the escaping of strings and the datetime arithmetic
    are taken as parameters, so that what is proved holds whatever they
    return; [cpython] below is a concrete instance.  A datetime is a count of
    microseconds on the local time line. *)
Record pylib : Type := {
  float_repr : float -> string;        (* repr(x) of a float *)
  format_2f : float -> string;         (* format(x, ".2f") *)
  str_repr : string -> string;         (* repr(s) of a str *)
  json_str : string -> string;         (* json.dumps(s) of a str *)
  isoformat : Z -> string;             (* datetime.isoformat() *)
  total_seconds : Z -> float           (* timedelta.total_seconds() *)
}.

(** The environment of one run: the configuration read at import time, the
    clock, the network, and what [inspect] reports for the prompt builder. *)
Record environ : Type := {
  DEEPSEEK_API_KEY : string;           (* os.getenv("DEEPSEEK_API_KEY", "") *)
  now : nat -> Z;                      (* the n-th datetime.now() reading *)
  http_post : list request -> request -> http_result;
                                       (* the reply to a request, given the
                                          requests posted before it *)
  llm_file : string;                   (* inspect.getfile of llm.py functions *)
  prompt_source : option string        (* inspect.getsource of the prompt
                                          builder, None when it raises *)
}.

(** An instrumented callable as [wrapper] sees it: its name, what [inspect]
    reports (or raises) for it, and its behaviour when called, which may
    itself touch the world (nested instrumented calls, for instance). *)
Record callable : Type := {
  fn_name : string;                            (* fn.__name__ *)
  fn_params : result (list string);            (* list(inspect.signature(fn).parameters.keys()) *)
  fn_file : result string;                     (* inspect.getfile(fn) *)
  fn_source : option string;                   (* inspect.getsource(fn) *)
  fn_call : list pyval -> dict -> M pyval      (* fn(args..., kwargs...) *)
}.

(** ** explainx.py *)

(** Lines 36-39: the loop over [enumerate(args)], from index [i]. *)
Fixpoint bind_positional (params : list string) (i : nat) (args : list pyval)
    (inputs : dict) : dict :=
  match args with
  | [] => inputs
  | arg :: rest =>
      bind_positional params (S i) rest
        (match params !! i with
         | Some p => dict_set p arg inputs
         | None => inputs
         end)
  end.

(** Lines 36-40. *)
Definition build_inputs (params : list string) (args : list pyval) (kwargs : dict)
  : dict :=
  dict_update (bind_positional params 0 args []) kwargs.

Definition source_unavailable : string := "Source code not available".

(** The world after one more clock reading. *)
Definition tick (w : world) : world :=
  {| heap := heap w; TRACE := TRACE w; ticks := S (ticks w);
     net_log := net_log w |}.

(** The world after a new trace dict is allocated and its reference added at
    the tail of the store. *)
Definition push (t : trace) (w : world) : world :=
  {| heap := heap w ++ [t]; TRACE := TRACE w ++ [length (heap w)];
     ticks := ticks w; net_log := net_log w |}.

(** The world after one more request went out. *)
Definition posted (r : request) (w : world) : world :=
  {| heap := heap w; TRACE := TRACE w; ticks := ticks w;
     net_log := net_log w ++ [r] |}.

(** The world after [trace["explanation"] = e] on the dict at [l]. *)
Definition explained (l : loc) (e : pyval) (w : world) : world :=
  {| heap := alter (set_explanation e) l (heap w); TRACE := TRACE w;
     ticks := ticks w; net_log := net_log w |}.

(** The world with the store emptied. *)
Definition emptied (w : world) : world :=
  {| heap := heap w; TRACE := []; ticks := ticks w; net_log := net_log w |}.

Section Model.

Variable py : pylib.
Variable env : environ.

Definition datetime_now : M Z :=
  fun w => (Ok (now env (ticks w)), tick w).

(** [TRACE.append({...})] *)
Definition TRACE_append (t : trace) : M unit :=
  fun w => (Ok tt, push t w).

Definition wrapper (fn : callable) (args : list pyval) (kwargs : dict) : M pyval :=
  do start <- datetime_now;
  do params <- lift (fn_params fn);
  let inputs := build_inputs params args kwargs in
  do res <- fn_call fn args kwargs;
  do stop <- datetime_now;
  let source_code :=
    match fn_source fn with Some s => s | None => source_unavailable end in
  do f <- lift (fn_file fn);
  run TRACE_append
    {| function := fn_name fn;
       file := f;
       inputs := inputs;
       output := res;
       code := source_code;
       start_time := isoformat py start;
       end_time := isoformat py stop;
       duration_ms := (total_seconds py (stop - start) * 1000)%float;
       explanation := PNone |};
  ret res.

(** [pop_traces]: a copy of the list, and a fresh empty list in [TRACE]. *)
Definition pop_traces : M (list loc) :=
  fun w => (Ok (TRACE w), emptied w).

Definition clear_traces : M unit :=
  fun w => (Ok tt, emptied w).

Definition get_traces : M (list loc) :=
  fun w => (Ok (TRACE w), w).

(** ** Rendering values: [repr], [str] and [json.dumps] *)

Definition nl : string := String "010" EmptyString.

Definition join (sep : string) (l : list string) : string := String.concat sep l.

(** The items of a trace dict, in the order [wrapper] wrote them. *)
Definition trace_items (t : trace) : dict :=
  [("function", PStr (function t)); ("file", PStr (file t));
   ("inputs", PDict (inputs t)); ("output", output t);
   ("code", PStr (code t)); ("start_time", PStr (start_time t));
   ("end_time", PStr (end_time t)); ("duration_ms", PFloat (duration_ms t));
   ("explanation", explanation t)].

(** [repr(v)], given how a reference to a trace dict prints. *)
Fixpoint py_repr_with (ref_repr : loc -> string) (v : pyval) : string :=
  match v with
  | PNone => "None"
  | PBool b => if b then "True" else "False"
  | PInt z => pretty z
  | PFloat f => float_repr py f
  | PStr s => str_repr py s
  | PList l => "[" +:+ join ", " (map (py_repr_with ref_repr) l) +:+ "]"
  | PDict kv =>
      "{" +:+ join ", "
        (map (fun item => str_repr py (fst item) +:+ ": "
                          +:+ py_repr_with ref_repr (snd item)) kv) +:+ "}"
  | PObj o => obj_repr o
  | PRef l => ref_repr l
  end.

(** A trace dict holds references only to dicts allocated before it (the
    arguments and the result of a call exist before its record does), so the
    dict at [l] is printed with the references below [l]; any other reference
    prints as Python prints a dict met again inside itself. *)
Fixpoint ref_repr_below (h : list trace) (n : nat) (l : loc) : string :=
  match n with
  | O => "{...}"
  | S n' =>
      if Nat.eqb l n' then
        match h !! n' with
        | Some t => py_repr_with (ref_repr_below h n') (PDict (trace_items t))
        | None => "{...}"
        end
      else ref_repr_below h n' l
  end.

Definition py_repr (h : list trace) (v : pyval) : string :=
  py_repr_with (ref_repr_below h (length h)) v.

(** [str(v)], which is what an f-string field [{v}] inserts. *)
Definition py_str (h : list trace) (v : pyval) : string :=
  match v with
  | PStr s => s
  | PObj o => obj_str o
  | _ => py_repr h v
  end.

Definition mapM {A B : Type} (f : A -> result B) : list A -> result (list B) :=
  fix go (l : list A) : result (list B) :=
    match l with
    | [] => Ok []
    | x :: l' =>
        match f x with
        | Raise e => Raise e
        | Ok y => match go l' with
                  | Raise e => Raise e
                  | Ok ys => Ok (y :: ys)
                  end
        end
    end.

Definition spaces (n : nat) : string := String.concat "" (repeat " " n).

(** Opening bracket, items and closing bracket of a JSON array or object at
    nesting depth [level]: on one line without [indent], one item per line
    with it. *)
Definition json_container (indent : option nat) (level : nat)
    (open close : string) (items : list string) : string :=
  match items, indent with
  | [], _ => open +:+ close
  | _, None => open +:+ join ", " items +:+ close
  | _, Some n =>
      let inner := nl +:+ spaces (n * S level) in
      open +:+ inner +:+ join ("," +:+ inner) items
      +:+ nl +:+ spaces (n * level) +:+ close
  end.

Definition json_float (f : float) : string :=
  if PrimFloat.is_nan f then "NaN"
  else if PrimFloat.is_infinity f then
    (if (f <? 0)%float then "-Infinity" else "Infinity")
  else float_repr py f.

(** [json.dumps(v, indent=indent)] at nesting depth [level], given how a
    reference to a trace dict is encoded at a depth.  An object outside the
    JSON types raises TypeError. *)
Fixpoint json_with (ref_json : nat -> loc -> result string)
    (indent : option nat) (level : nat) (v : pyval) : result string :=
  match v with
  | PNone => Ok "null"
  | PBool b => Ok (if b then "true" else "false")
  | PInt z => Ok (pretty z)
  | PFloat f => Ok (json_float f)
  | PStr s => Ok (json_str py s)
  | PList l =>
      match mapM (json_with ref_json indent (S level)) l with
      | Ok items => Ok (json_container indent level "[" "]" items)
      | Raise e => Raise e
      end
  | PDict kv =>
      match mapM (fun item =>
                    match json_with ref_json indent (S level) (snd item) with
                    | Ok s => Ok (json_str py (fst item) +:+ ": " +:+ s)
                    | Raise e => Raise e
                    end) kv with
      | Ok items => Ok (json_container indent level "{" "}" items)
      | Raise e => Raise e
      end
  | PObj o =>
      Raise (Exn "TypeError"
               ("Object of type " +:+ obj_class o +:+ " is not JSON serializable"))
  | PRef l => ref_json level l
  end.

Fixpoint ref_json_below (h : list trace) (indent : option nat) (n : nat)
    (level : nat) (l : loc) : result string :=
  match n with
  | O => Raise (Exn "ValueError" "Circular reference detected")
  | S n' =>
      if Nat.eqb l n' then
        match h !! n' with
        | Some t =>
            json_with (ref_json_below h indent n') indent level
              (PDict (trace_items t))
        | None => Raise (Exn "ValueError" "Circular reference detected")
        end
      else ref_json_below h indent n' level l
  end.

Definition json_dumps (h : list trace) (indent : option nat) (v : pyval)
  : result string :=
  json_with (ref_json_below h indent (length h)) indent 0 v.

(** [bool(v)], as [not v] tests it. *)
Definition truthy (v : pyval) : bool :=
  match v with
  | PNone => false
  | PBool b => b
  | PInt z => negb (z =? 0)
  | PFloat f => negb (f =? 0)%float
  | PStr s => negb (String.eqb s "")
  | PList l => match l with [] => false | _ => true end
  | PDict kv => match kv with [] => false | _ => true end
  | PObj o => obj_truth o
  | PRef _ => true
  end.

(** ** llm.py *)

Definition DEEPSEEK_API_URL : string := "https://api.deepseek.com/chat/completions".

Definition OPENROUTER_API_URL : string := "https://openrouter.ai/api/v1/chat/completions".

Definition OPENROUTER_API_KEY : string :=
  "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".

(** Trace dicts are reached through references; a reference that points
    nowhere cannot occur in Python and raises here. *)
Definition dangling {A : Type} : result A :=
  Raise (Exn "ReferenceError" "no such trace dict").

(** Lines 25-42, the body of [generate_explanation_prompt], applied to a
    trace dict: the f-string, its fields evaluated from left to right. *)
Definition prompt_text (h : list trace) (tr : pyval) : result pyval :=
  match tr with
  | PRef l =>
      match h !! l with
      | Some t =>
          match json_dumps h (Some 2%nat) (PDict (inputs t)) with
          | Raise e => Raise e
          | Ok inputs_json =>
              match (match output t with
                     | PInt _ | PFloat _ | PStr _ | PBool _ => Ok (py_str h (output t))
                     | _ => json_dumps h None (output t)
                     end) with
              | Raise e => Raise e
              | Ok output_text =>
                  Ok (PStr (
                    "You are a senior software engineer. Analyze this function execution and provide a clear, concise explanation to your Junior Software Engineer." +:+ nl
                    +:+ nl
                    +:+ "**Function Name:** " +:+ function t +:+ nl
                    +:+ "**File:** " +:+ file t +:+ nl
                    +:+ "**Inputs:** " +:+ inputs_json +:+ nl
                    +:+ "**Output:** " +:+ output_text +:+ nl
                    +:+ nl
                    +:+ "**Source Code:**" +:+ nl
                    +:+ "```python" +:+ nl
                    +:+ code t +:+ nl
                    +:+ "```" +:+ nl
                    +:+ nl
                    +:+ "Provide a brief explanation (2-3 sentences) of:" +:+ nl
                    +:+ "1. What this function does" +:+ nl
                    +:+ "2. Why it returned this specific output given the inputs" +:+ nl
                    +:+ "3. Any important logic or edge cases handled" +:+ nl
                    +:+ nl
                    +:+ "Keep the explanation simple and understandable for your Junior Software Engineer."))
              end
          end
      | None => dangling
      end
  | _ => Raise (Exn "TypeError" "the prompt builder takes a trace dict")
  end.

(** The function that [@explainX()] decorates at line 23: one parameter,
    [trace], given by position or by name. *)
Definition prompt_fn : callable :=
  {| fn_name := "generate_explanation_prompt";
     fn_params := Ok ["trace"];
     fn_file := Ok (llm_file env);
     fn_source := prompt_source env;
     fn_call := fun args kwargs =>
       match args, kwargs with
       | [tr], [] => fun w => (prompt_text (heap w) tr, w)
       | [], [(k, tr)] =>
           if String.eqb k "trace" then fun w => (prompt_text (heap w) tr, w)
           else raise (Exn "TypeError" "unexpected keyword argument")
       | _, _ => raise (Exn "TypeError" "wrong number of arguments")
       end |}.

(** Line 23-24: the name [generate_explanation_prompt] is bound to the
    wrapper that the decorator returns. *)
Definition generate_explanation_prompt (tr : pyval) : M pyval :=
  wrapper prompt_fn [tr] [].

(** [await client.post(...)]: the request goes out and the network answers. *)
Definition client_post (r : request) : M http_result :=
  fun w => (Ok (http_post env (net_log w) r), posted r w).

#[local] Set Warnings "-inexact-float".

Definition chat_request (url key model : string) (prompt : pyval) : request :=
  {| req_url := url;
     req_timeout := 30%float;
     req_headers := [("Authorization", "Bearer " +:+ key);
                     ("Content-Type", "application/json")];
     req_json :=
       PDict [("model", PStr model);
              ("messages", PList [PDict [("role", PStr "user"); ("content", prompt)]]);
              ("temperature", PFloat 0.3%float);
              ("max_tokens", PInt 1000);
              ("top_p", PFloat 0.9%float);
              ("frequency_penalty", PFloat 0.2%float);
              ("presence_penalty", PFloat 0.2%float)] |}.

#[local] Set Warnings "inexact-float".

(** [v[k]] for a string key on the parsed JSON of a response, None when it
    raises. *)
Definition subscript_key (v : pyval) (k : string) : option pyval :=
  match v with
  | PDict kv => dict_get k kv
  | _ => None
  end.

(** The first character of a string held as UTF-8. *)
Definition first_char (s : string) : string :=
  match s with
  | EmptyString => EmptyString
  | String c _ =>
      let n := nat_of_ascii c in
      substring 0 (if (n <? 192)%nat then 1 else if (n <? 224)%nat then 2
                   else if (n <? 240)%nat then 3 else 4)%nat s
  end.

(** [v[0]] on the parsed JSON of a response, None when it raises. *)
Definition subscript_0 (v : pyval) : option pyval :=
  match v with
  | PList (x :: _) => Some x
  | PStr (String c s) => Some (PStr (first_char (String c s)))
  | _ => None
  end.

(** Line 71 and line 106: [data["choices"][0]["message"]["content"]]. *)
Definition extract_content (data : pyval) : option pyval :=
  match subscript_key data "choices" with
  | Some choices =>
      match subscript_0 choices with
      | Some choice =>
          match subscript_key choice "message" with
          | Some message => subscript_key message "content"
          | None => None
          end
      | None => None
      end
  | None => None
  end.

(** Lines 50-77 and 85-112 from the response on: the text of a 200 response,
    None after any exception or any other status.  The [print] calls write to
    the console only and are left out. *)
Definition provider_result (r : http_result) : pyval :=
  match r with
  | HttpRaise _ => PNone
  | HttpResponse status_code json =>
      if status_code =? 200 then
        match json with
        | Ok data =>
            match extract_content data with
            | Some content => content
            | None => PNone
            end
        | Raise _ => PNone
        end
      else PNone
  end.

Definition deepseek_request (prompt : pyval) : request :=
  chat_request DEEPSEEK_API_URL (DEEPSEEK_API_KEY env) "deepseek-chat" prompt.

Definition openrouter_request (prompt : pyval) : request :=
  chat_request OPENROUTER_API_URL OPENROUTER_API_KEY
    "mistralai/mistral-7b-instruct:free" prompt.

Definition call_deepseek (prompt : pyval) : M pyval :=
  if String.eqb (DEEPSEEK_API_KEY env) "" then ret PNone
  else
    do r <- client_post (deepseek_request prompt);
    ret (provider_result r).

Definition call_openrouter (prompt : pyval) : M pyval :=
  if String.eqb OPENROUTER_API_KEY "" then ret PNone
  else
    do r <- client_post (openrouter_request prompt);
    ret (provider_result r).

(** Lines 116-128. *)
Definition generate_fallback_explanation (h : list trace) (t : trace) : string :=
  let func_name := function t in
  let input_summary :=
    join ", " (map (fun item => fst item +:+ "=" +:+ py_str h (snd item)) (inputs t)) in
  "The function '" +:+ func_name +:+ "' was called with inputs: " +:+ input_summary +:+ ". "
  +:+ "It processed these values and returned: " +:+ py_str h (output t) +:+ ". "
  +:+ "Execution took " +:+ format_2f py (duration_ms t) +:+ "ms.".

(** [trace["explanation"] = e]: the dict is updated in place. *)
Definition store_explanation (l : loc) (e : pyval) : M unit :=
  fun w => (Ok tt, explained l e w).

Definition fallback_of (l : loc) : M pyval :=
  fun w => (match heap w !! l with
            | Some t => Ok (PStr (generate_fallback_explanation (heap w) t))
            | None => dangling
            end, w).

(** Lines 132-148. *)
Definition explain_single_trace (l : loc) : M pyval :=
  do prompt <- generate_explanation_prompt (PRef l);
  do explanation <- call_deepseek prompt;
  do explanation <- (if negb (truthy explanation) then call_openrouter prompt
                     else ret explanation);
  do explanation <- (if negb (truthy explanation) then fallback_of l
                     else ret explanation);
  run store_explanation l explanation;
  ret (PRef l).

(** Lines 150-156. *)
Fixpoint explain_traces_from (traces : list loc) (explained : list pyval)
  : M (list pyval) :=
  match traces with
  | [] => ret explained
  | l :: rest =>
      do explained_trace <- explain_single_trace l;
      explain_traces_from rest (explained ++ [explained_trace])
  end.

Definition explain_traces (traces : list loc) : M (list pyval) :=
  explain_traces_from traces [].

(** Lines 159-163. *)
Fixpoint explain_traces_sync_loop (traces : list loc) : M unit :=
  match traces with
  | [] => ret tt
  | l :: rest =>
      do e <- fallback_of l;
      run store_explanation l e;
      explain_traces_sync_loop rest
  end.

Definition explain_traces_sync (traces : list loc) : M (list loc) :=
  run explain_traces_sync_loop traces;
  ret traces.

(** [s.split("\n")] *)
Fixpoint split_lines (s : string) : list string :=
  match s with
  | EmptyString => [EmptyString]
  | String c s' =>
      if Ascii.eqb c "010" then EmptyString :: split_lines s'
      else match split_lines s' with
           | [] => [String c EmptyString]
           | line :: lines => String c line :: lines
           end
  end.

Definition rule (c : string) : string := String.concat "" (repeat c 60).

(** Lines 176-193: the lines one trace adds to the report, [i] being its
    number.  [explanation.split] exists for a str only. *)
Definition report_entry (h : list trace) (i : nat) (t : trace) : result (list string) :=
  match explanation t with
  | PStr explanation =>
      Ok (["[" +:+ pretty i +:+ "] Function: " +:+ function t;
           "    File: " +:+ file t;
           "    Execution Time: " +:+ format_2f py (duration_ms t) +:+ "ms";
           "";
           "    📥 Inputs:"]
          ++ map (fun item => "       • " +:+ fst item +:+ ": " +:+ py_str h (snd item))
                 (inputs t)
          ++ [""; "    📤 Output: " +:+ py_str h (output t); ""; "    💡 Explanation:"]
          ++ map (fun line => "       " +:+ line) (split_lines explanation)
          ++ [""; rule "-"; ""])
  | _ => Raise (Exn "AttributeError" "object has no attribute 'split'")
  end.

(** Lines 175-193: the loop over [enumerate(traces, 1)], from number [i]. *)
Fixpoint report_loop (h : list trace) (i : nat) (traces : list loc)
    (lines : list string) : result (list string) :=
  match traces with
  | [] => Ok lines
  | l :: rest =>
      match h !! l with
      | Some t =>
          match report_entry h i t with
          | Ok entry => report_loop h (S i) rest (lines ++ entry)
          | Raise e => Raise e
          end
      | None => dangling
      end
  end.

(** Lines 166-199.  The function reads the trace dicts and writes nothing. *)
Definition build_explain_file (h : list trace) (traces : list loc) : result string :=
  let lines := [rule "="; "ExplainX - Function Execution Report"; rule "="; ""] in
  match report_loop h 1 traces lines with
  | Ok lines =>
      Ok (join nl (lines ++ [rule "="; "End of ExplainX Report"; rule "="]))
  | Raise e => Raise e
  end.

End Model.

(** ** A concrete Python library

    The library functions as CPython computes them, for evaluating the model
    on concrete inputs: [format(x, ".2f")], [isoformat] and [total_seconds]
    in full; [repr] and [json.dumps] of a str for ASCII text (other bytes are
    copied as they are); [repr] of a float as its exact decimal expansion,
    which is CPython's output whenever that expansion has at most 15
    significant digits and the value lies between 1e-4 and 1e16. *)

Definition dquote : string := String "034" EmptyString.

Fixpoint has_char (c : ascii) (s : string) : bool :=
  match s with
  | EmptyString => false
  | String c' s' => Ascii.eqb c c' || has_char c s'
  end.

Definition hex_digit (n : nat) : string :=
  String.substring n 1 "0123456789abcdef".

Definition hex2 (n : nat) : string := hex_digit (n / 16) +:+ hex_digit (n mod 16).

Fixpoint repr_escape (q : ascii) (s : string) : string :=
  match s with
  | EmptyString => EmptyString
  | String c s' =>
      let n := nat_of_ascii c in
      (if Ascii.eqb c q || Ascii.eqb c "\" then String "\" (String c EmptyString)
       else if (n =? 10)%nat then "\n"
       else if (n =? 13)%nat then "\r"
       else if (n =? 9)%nat then "\t"
       else if (n <? 32)%nat || (n =? 127)%nat then "\x" +:+ hex2 n
       else String c EmptyString) +:+ repr_escape q s'
  end.

Definition ascii_str_repr (s : string) : string :=
  let q := if has_char "'" s && negb (has_char "034" s) then "034"%char else "'"%char in
  String q (repr_escape q s +:+ String q EmptyString).

Fixpoint json_escape (s : string) : string :=
  match s with
  | EmptyString => EmptyString
  | String c s' =>
      let n := nat_of_ascii c in
      (if Ascii.eqb c "034" || Ascii.eqb c "\" then String "\" (String c EmptyString)
       else if (n =? 10)%nat then "\n"
       else if (n =? 13)%nat then "\r"
       else if (n =? 9)%nat then "\t"
       else if (n =? 8)%nat then "\b"
       else if (n =? 12)%nat then "\f"
       else if (n <? 32)%nat then "\u00" +:+ hex2 n
       else String c EmptyString) +:+ json_escape s'
  end.

Definition ascii_json_str (s : string) : string := dquote +:+ json_escape s +:+ dquote.

(** The decimal digits of [n], padded on the left with zeros to width [k]. *)
Definition zero_pad (k : nat) (n : Z) : string :=
  let d := pretty n in
  String.concat "" (repeat "0" (k - String.length d)) +:+ d.

Definition round_half_even (x d : Z) : Z :=
  let q := x / d in
  let r := x mod d in
  if 2 * r <? d then q
  else if d <? 2 * r then q + 1
  else if Z.even q then q else q + 1.

Definition exact_format_2f (f : float) : string :=
  match Prim2SF f with
  | S754_nan => "nan"
  | S754_infinity s => if s then "-inf" else "inf"
  | S754_zero s => if s then "-0.00" else "0.00"
  | S754_finite s m e =>
      let n := if 0 <=? e then Zpos m * 100 * 2 ^ e
               else round_half_even (Zpos m * 100) (2 ^ (- e)) in
      (if s then "-" else "") +:+ pretty (n / 100) +:+ "." +:+ zero_pad 2 (n mod 100)
  end.

Fixpoint strip_zeros_rev (s : list ascii) : list ascii :=
  match s with
  | c :: s' => if Ascii.eqb c "0" then strip_zeros_rev s' else s
  | [] => []
  end.

Definition strip_trailing_zeros (s : string) : string :=
  string_of_list_ascii (rev (strip_zeros_rev (rev (list_ascii_of_string s)))).

Definition exact_float_repr (f : float) : string :=
  match Prim2SF f with
  | S754_nan => "nan"
  | S754_infinity s => if s then "-inf" else "inf"
  | S754_zero s => if s then "-0.0" else "0.0"
  | S754_finite s m e =>
      (if s then "-" else "") +:+
      (if 0 <=? e then pretty (Zpos m * 2 ^ e) +:+ ".0"
       else
         let k := Z.to_nat (- e) in
         let n := Zpos m * 5 ^ (- e) in
         let frac := strip_trailing_zeros (zero_pad k (n mod 10 ^ (- e))) in
         pretty (n / 10 ^ (- e)) +:+ "." +:+ (if String.eqb frac "" then "0" else frac))
  end.

Definition civil_isoformat (us : Z) : string :=
  let days := us / 86400000000 in
  let rest := us mod 86400000000 in
  let z := days + 719468 in
  let era := z / 146097 in
  let doe := z mod 146097 in
  let yoe := (doe - doe / 1460 + doe / 36524 - doe / 146096) / 365 in
  let doy := doe - (365 * yoe + yoe / 4 - yoe / 100) in
  let mp := (5 * doy + 2) / 153 in
  let d := doy - (153 * mp + 2) / 5 + 1 in
  let m := if mp <? 10 then mp + 3 else mp - 9 in
  let y := yoe + era * 400 + (if m <=? 2 then 1 else 0) in
  let secs := rest / 1000000 in
  let frac := rest mod 1000000 in
  zero_pad 4 y +:+ "-" +:+ zero_pad 2 m +:+ "-" +:+ zero_pad 2 d +:+ "T"
  +:+ zero_pad 2 (secs / 3600) +:+ ":" +:+ zero_pad 2 (secs / 60 mod 60) +:+ ":"
  +:+ zero_pad 2 (secs mod 60)
  +:+ (if frac =? 0 then "" else "." +:+ zero_pad 6 frac).

Definition exact_total_seconds (us : Z) : float :=
  match us with
  | Z0 => 0%float
  | Zpos p => SF2Prim (SFdiv 53 1024 (S754_finite false p 0) (S754_finite false 1000000 0))
  | Zneg p => SF2Prim (SFdiv 53 1024 (S754_finite true p 0) (S754_finite false 1000000 0))
  end.

Definition cpython : pylib :=
  {| float_repr := exact_float_repr;
     format_2f := exact_format_2f;
     str_repr := ascii_str_repr;
     json_str := ascii_json_str;
     isoformat := civil_isoformat;
     total_seconds := exact_total_seconds |}.

(** ** Calls and batches, as the properties below speak of them *)

(** One call site: a callable with its positional and named arguments. *)
Record call : Type := {
  callee : callable;
  call_args : list pyval;
  call_kwargs : dict
}.

(** Instrumented calls made one after the other, each through [wrapper]; the
    caller goes on after a call that raises.  The outcomes are returned in
    call order. *)
Fixpoint call_sequence (py : pylib) (env : environ) (calls : list call) (w : world)
  : list (result pyval) * world :=
  match calls with
  | [] => ([], w)
  | c :: rest =>
      let (r, w1) := wrapper py env (callee c) (call_args c) (call_kwargs c) w in
      let (rs, w2) := call_sequence py env rest w1 in
      (r :: rs, w2)
  end.

(** The trace dict whose reference is at the tail of the store. *)
Definition last_record (w : world) : option trace :=
  match last (TRACE w) with
  | Some l => heap w !! l
  | None => None
  end.

(** The dict that [wrapper] appends at line 55. *)
Definition wrapper_record (py : pylib) (fn : callable) (f : string) (params : list string)
    (args : list pyval) (kwargs : dict) (res : pyval) (start stop : Z) : trace :=
  {| function := fn_name fn;
     file := f;
     inputs := build_inputs params args kwargs;
     output := res;
     code := match fn_source fn with Some s => s | None => source_unavailable end;
     start_time := isoformat py start;
     end_time := isoformat py stop;
     duration_ms := (total_seconds py (stop - start) * 1000)%float;
     explanation := PNone |}.

(** A callable whose own execution leaves the trace dicts and the store as it
    found them (it makes no instrumented call of its own). *)
Definition store_neutral (fn : callable) : Prop :=
  forall args kwargs w,
    heap (snd (fn_call fn args kwargs w)) = heap w /\
    TRACE (snd (fn_call fn args kwargs w)) = TRACE w.

Definition is_ok {A : Type} (r : result A) : bool :=
  match r with Ok _ => true | Raise _ => false end.

(** ** Sample callables and a sample environment *)

(** How Python binds a call to a function [def f(p1, ..., pn)] whose
    parameters are all plain names without defaults: the positional arguments
    take the first names, every named argument takes one of the remaining
    names, and every name is taken exactly once. *)
Definition bind_named (params : list string) (args : list pyval) (kwargs : dict)
  : option dict :=
  if (length args <=? length params)%nat
     && forallb (fun k => bool_decide (k ∈ drop (length args) params)) (dict_keys kwargs)
     && bool_decide (NoDup (dict_keys kwargs))
     && (length args + length kwargs =? length params)%nat
  then Some (dict_update (zip params args) kwargs)
  else None.

(** [def name(p1, ..., pn): ...] with a body that touches neither the store
    nor the trace dicts. *)
Definition named_fn (name : string) (params : list string)
    (body : dict -> result pyval) : callable :=
  {| fn_name := name;
     fn_params := Ok params;
     fn_file := Ok "/app/backend/functions/sample.py";
     fn_source := None;
     fn_call := fun args kwargs =>
       match bind_named params args kwargs with
       | Some bound => lift (body bound)
       | None => raise (Exn "TypeError" (name +:+ "() got unexpected arguments"))
       end |}.

(** [def scale(x, y, c): return None] *)
Definition scale_fn : callable :=
  named_fn "scale" ["x"; "y"; "c"] (fun _ => Ok PNone).

(** [def reject(x): raise ValueError("bad input")] *)
Definition reject_fn : callable :=
  named_fn "reject" ["x"] (fun _ => Raise (Exn "ValueError" "bad input")).

(** [def collect( *xs ): return len(xs)] *)
Definition collect_fn : callable :=
  {| fn_name := "collect";
     fn_params := Ok ["xs"];
     fn_file := Ok "/app/backend/functions/sample.py";
     fn_source := None;
     fn_call := fun args kwargs =>
       match kwargs with
       | [] => ret (PInt (Z.of_nat (length args)))
       | _ => raise (Exn "TypeError" "collect() got an unexpected keyword argument")
       end |}.

(** [def options( **kw ): return len(kw)] *)
Definition options_fn : callable :=
  {| fn_name := "options";
     fn_params := Ok ["kw"];
     fn_file := Ok "/app/backend/functions/sample.py";
     fn_source := None;
     fn_call := fun args kwargs =>
       match args with
       | [] => ret (PInt (Z.of_nat (length kwargs)))
       | _ => raise (Exn "TypeError" "options() takes 0 positional arguments")
       end |}.

(** An environment with the given DeepSeek key, in which the clock advances
    by one millisecond per reading and the network answers as [reply] says. *)
Definition keyed_env (key : string) (reply : list request -> request -> http_result)
  : environ :=
  {| DEEPSEEK_API_KEY := key;
     now := fun n => 1762241130000000 + 1000 * Z.of_nat n;
     http_post := reply;
     llm_file := "/app/backend/llm.py";
     prompt_source := None |}.

(** The same with no DeepSeek key set, as when the variable is absent. *)
Definition sample_env (reply : list request -> request -> http_result) : environ :=
  keyed_env "" reply.

Definition unreachable : list request -> request -> http_result :=
  fun _ _ => HttpRaise (Exn "ConnectError" "All connection attempts failed").

(** A 200 response whose JSON body carries [content] as the message text. *)
Definition chat_reply (content : pyval) : http_result :=
  HttpResponse 200
    (Ok (PDict [("id", PStr "chatcmpl-1");
                ("choices",
                 PList [PDict [("index", PInt 0);
                               ("message", PDict [("role", PStr "assistant");
                                                  ("content", content)])]])])).

(** A network on which DeepSeek answers [ds] and every other host [other]. *)
Definition two_hosts (ds other : http_result) : list request -> request -> http_result :=
  fun _ r => if String.eqb (req_url r) DEEPSEEK_API_URL then ds else other.

Definition empty_world : world :=
  {| heap := []; TRACE := []; ticks := 0; net_log := [] |}.

(** The world after [scale(1, 2, c=3)], and the same after the store was
    drained: the record of the call is the dict at 0. *)
Definition one_call_world : world :=
  snd (wrapper cpython (sample_env unreachable) scale_fn
         [PInt 1; PInt 2] [("c", PInt 3)] empty_world).

Definition drained_world : world := emptied one_call_world.

(** A Python set, which [json.dumps] does not serialise. *)
Definition a_set : pyval :=
  PObj {| obj_class := "set"; obj_repr := "{1, 2}"; obj_str := "{1, 2}";
          obj_truth := true |}.

(** The world after [collect({1, 2})] and a drain of the store. *)
Definition set_call_world : world :=
  emptied (snd (wrapper cpython (sample_env unreachable) collect_fn
                  [a_set] [] empty_world)).

(** ** Relating records to calls *)

(** The record at [l] is the record of the call [c] with outcome [r]. *)
Definition records_call (h : list trace) (c : call) (r : result pyval) (l : loc) : Prop :=
  exists t params,
    h !! l = Some t
    /\ fn_params (callee c) = Ok params
    /\ function t = fn_name (callee c)
    /\ inputs t = build_inputs params (call_args c) (call_kwargs c)
    /\ r = Ok (output t).

(** The calls that returned, each with its outcome, in call order. *)
Definition returned (calls : list call) (outs : list (result pyval))
  : list (call * result pyval) :=
  List.filter (fun cr => is_ok (snd cr)) (zip calls outs).

(** Two calls made one after the other: [scale(1, 2, c=3)], [scale(4, 5, 6)]. *)
Definition two_calls : list call :=
  [ {| callee := scale_fn; call_args := [PInt 1; PInt 2];
       call_kwargs := [("c", PInt 3)] |};
    {| callee := scale_fn; call_args := [PInt 4; PInt 5; PInt 6];
       call_kwargs := [] |} ].

(** ** What the chain sees of a reply *)

(** The text a reply contributes to the chain: the extracted content when it
    is truthy, None otherwise. *)
Definition effective (r : http_result) : pyval :=
  if truthy (provider_result r) then provider_result r else PNone.

(** Two environments that differ at most in how the network answers. *)
Definition same_setup (env1 env2 : environ) : Prop :=
  DEEPSEEK_API_KEY env1 = DEEPSEEK_API_KEY env2
  /\ now env1 = now env2
  /\ llm_file env1 = llm_file env2
  /\ prompt_source env1 = prompt_source env2.

(** A reply that the chain counts as a failure of the provider: the request
    raised, the status is not 200, the body is not JSON, or the JSON has no
    [choices[0].message.content]. *)
Definition failed_reply (r : http_result) : Prop :=
  match r with
  | HttpRaise _ => True
  | HttpResponse status_code json =>
      status_code <> 200
      \/ match json with
         | Raise _ => True
         | Ok data => extract_content data = None
         end
  end.

(** An attempt that gives the chain nothing to keep: it succeeded with the
    empty string as text, or it failed. *)
Definition no_text (r : http_result) : Prop :=
  provider_result r = PStr "" \/ failed_reply r.

(** DeepSeek is configured; it answers with an empty text, OpenRouter with a
    sentence. *)
Definition empty_then_text_env : environ :=
  keyed_env "sk-test"
    (two_hosts (chat_reply (PStr "")) (chat_reply (PStr "Scales three numbers."))).

(** DeepSeek is configured; it cannot be reached, OpenRouter answers with a
    sentence. *)
Definition down_then_text_env : environ :=
  keyed_env "sk-test"
    (two_hosts (HttpRaise (Exn "ConnectTimeout" "timed out"))
               (chat_reply (PStr "Scales three numbers."))).

(** The prompt of the dict at [l], None when it cannot be built. *)
Definition prompt_of (py : pylib) (w : world) (l : loc) : pyval :=
  match prompt_text py (heap w) (PRef l) with
  | Ok p => p
  | Raise _ => PNone
  end.

(** The text the chain keeps: the first truthy one of DeepSeek's, OpenRouter's
    and the fallback. *)
Definition chain_choice (e1 e2 fallback : pyval) : pyval :=
  if truthy e1 then e1 else if truthy e2 then e2 else fallback.

(** ** Plain data and batches *)

(** A value that holds no reference to a trace dict. *)
Fixpoint no_refs (v : pyval) : bool :=
  match v with
  | PList l => forallb no_refs l
  | PDict kv => forallb (fun item => no_refs (snd item)) kv
  | PRef _ => false
  | _ => true
  end.

(** A value built from None, bools, numbers, strings, lists and dicts only. *)
Fixpoint json_data (v : pyval) : bool :=
  match v with
  | PList l => forallb json_data l
  | PDict kv => forallb (fun item => json_data (snd item)) kv
  | PObj _ | PRef _ => false
  | _ => true
  end.

(** A record whose inputs and output hold no reference to a trace dict. *)
Definition plain_record (t : trace) : bool :=
  forallb (fun item => no_refs (snd item)) (inputs t) && no_refs (output t).

Definition set_heap (h : list trace) (w : world) : world :=
  {| heap := h; TRACE := TRACE w; ticks := ticks w; net_log := net_log w |}.

(** What one step of the loop at lines 161-162 does to a plain record. *)
Definition refresh (py : pylib) (t : trace) : trace :=
  set_explanation (PStr (generate_fallback_explanation py [] t)) t.

(** The explanation text of the dict at [l], empty when there is none. *)
Definition explanation_text (w : world) (l : loc) : string :=
  match heap w !! l with
  | Some t => match explanation t with PStr s => s | _ => "" end
  | None => ""
  end.

(** Whether [needle] occurs in [s]. *)
Definition occurs (needle s : string) : bool :=
  match String.index 0 needle s with Some _ => true | None => false end.

(** The world after [scale(1, 2, c=3)] and a prompt built for its record:
    the store holds the record of the call, at 0, and the record of the
    prompt-builder call, at 1, whose input is the dict at 0 itself. *)
Definition prompted_world : world :=
  snd (generate_explanation_prompt cpython (sample_env unreachable) (PRef 0%nat)
         one_call_world).

Definition once_explained : world :=
  snd (explain_traces_sync cpython [1%nat; 0%nat] prompted_world).

Definition twice_explained : world :=
  snd (explain_traces_sync cpython [1%nat; 0%nat] once_explained).

(** The lines of a report without records. *)
Definition empty_report : string :=
  join nl [rule "="; "ExplainX - Function Execution Report"; rule "="; "";
           rule "="; "End of ExplainX Report"; rule "="].

(** The world after the two sample calls and a fallback pass over their
    records, and the same after one more dict was allocated. *)
Definition explained_two : world :=
  snd (explain_traces_sync cpython [0%nat; 1%nat]
         (snd (call_sequence cpython (sample_env unreachable) two_calls empty_world))).

Definition explained_two_more : world :=
  snd (generate_explanation_prompt cpython (sample_env unreachable) (PRef 0%nat)
         explained_two).


(** ** llm.py: the chat about a report *)

Definition chat_apology : string :=
  "Sorry, I couldn't process your request at this time.".

(** Lines 204-214: the f-string, whose continuation lines keep the
    indentation of the source. *)
Definition chat_prompt (py : pylib) (h : list trace) (report_text query : pyval)
  : string :=
  "You are a helpful AI assistant explaining a technical execution report to a developer." +:+ nl
  +:+ "    " +:+ nl
  +:+ "    REPORT CONTEXT:" +:+ nl
  +:+ "    " +:+ py_str py h report_text +:+ nl
  +:+ "    " +:+ nl
  +:+ "    USER QUESTION:" +:+ nl
  +:+ "    " +:+ py_str py h query +:+ nl
  +:+ "    " +:+ nl
  +:+ "    Answer the user's question based strictly on the report context provided above." +:+ nl
  +:+ "    If the answer is not in the report, say so." +:+ nl
  +:+ "    Be concise and technical.".

(** Lines 202-223. *)
Definition chat_about_report (py : pylib) (env : environ) (report_text query : pyval)
  : M pyval :=
  do prompt <- (fun w => (Ok (PStr (chat_prompt py (heap w) report_text query)), w));
  do response <- call_openrouter env prompt;
  ret (if truthy response then response else PStr chat_apology).

(** ** main.py: the endpoints that answer with traces and a report *)

(** [try: m except Exception: handler] *)
Definition try_except {A : Type} (m handler : M A) : M A :=
  fun w => match m w with
           | (Raise _, w') => handler w'
           | (Ok a, w') => (Ok a, w')
           end.

(** The trace dicts of a list of references. *)
Definition ref_locs (vs : list pyval) : result (list loc) :=
  mapM (fun v => match v with
                 | PRef l => Ok l
                 | _ => Raise (Exn "TypeError" "not a trace dict")
                 end) vs.

(** Lines 91-116 and 137-166, the body shared by [run_simple_checkout] and
    [run_full_checkout], with the checkout call as [pipeline]: the result, the
    explained traces and the report text that go into the response. *)
Definition run_checkout (py : pylib) (env : environ) (pipeline : M pyval)
  : M (pyval * list pyval * string) :=
  run clear_traces;
  do result <- pipeline;
  do traces <- pop_traces;
  do explained_traces <-
    try_except (explain_traces py env traces)
               (do ls <- explain_traces_sync py traces; ret (PRef <$> ls));
  do explain_text <-
    (fun w => (match ref_locs explained_traces with
               | Ok ls => build_explain_file py (heap w) ls
               | Raise e => Raise e
               end, w));
  ret (result, explained_traces, explain_text).

(** A record whose inputs and output are JSON data. *)
Definition json_record (t : trace) : bool :=
  forallb (fun item => json_data (snd item)) (inputs t) && json_data (output t).

(** A value that [explanation.split] accepts. *)
Definition is_str (v : pyval) : bool :=
  match v with PStr _ => true | _ => false end.


(** [len], a built-in: [inspect.signature] knows its parameter, while
    [inspect.getfile] raises TypeError and [inspect.getsource] fails. *)
Definition builtin_len_fn : callable :=
  {| fn_name := "len";
     fn_params := Ok ["obj"];
     fn_file := Raise (Exn "TypeError"
                         "module, class, method, function, traceback, frame, or code object was expected, got builtin_function_or_method");
     fn_source := None;
     fn_call := fun args kwargs =>
       match args, kwargs with
       | [PList l], [] => ret (PInt (Z.of_nat (length l)))
       | [PStr s], [] => ret (PInt (Z.of_nat (String.length s)))
       | _, _ => raise (Exn "TypeError" "len() takes exactly one argument")
       end |}.

(** The records of [w] are still there in [w'], changed at most in their
    explanation. *)
Definition kept (w w' : world) : Prop :=
  forall l t, heap w !! l = Some t ->
    exists e, heap w' !! l = Some (set_explanation e t).

(** The operations of explainx.py and llm.py on the world. *)
Inductive op : Type :=
| OpCall (c : call)
| OpPop
| OpClear
| OpGet
| OpPrompt (tr : pyval)
| OpExplain (l : loc)
| OpExplainAll (ls : list loc)
| OpExplainSync (ls : list loc)
| OpChat (report_text query : pyval).

Definition run_op (py : pylib) (env : environ) (o : op) (w : world) : world :=
  match o with
  | OpCall c => snd (wrapper py env (callee c) (call_args c) (call_kwargs c) w)
  | OpPop => snd (pop_traces w)
  | OpClear => snd (clear_traces w)
  | OpGet => snd (get_traces w)
  | OpPrompt tr => snd (generate_explanation_prompt py env tr w)
  | OpExplain l => snd (explain_single_trace py env l w)
  | OpExplainAll ls => snd (explain_traces py env ls w)
  | OpExplainSync ls => snd (explain_traces_sync py ls w)
  | OpChat report_text query => snd (chat_about_report py env report_text query w)
  end.

Definition run_ops (py : pylib) (env : environ) (ops : list op) (w : world) : world :=
  foldl (fun w o => run_op py env o w) w ops.

(** A callable whose own execution changes no trace dict but, at most, in its
    explanation.  Instrumented calls of its own are allowed. *)
Definition keeps_records (fn : callable) : Prop :=
  forall args kwargs w, kept w (snd (fn_call fn args kwargs w)).

Definition op_keeps_records (o : op) : Prop :=
  match o with
  | OpCall c => keeps_records (callee c)
  | _ => True
  end.

(** A callable that makes an instrumented call of its own: [outer(x)] returns
    [scale(x, 2, 3)], [scale] being decorated. *)
Definition nesting_fn (py : pylib) (env : environ) : callable :=
  {| fn_name := "outer";
     fn_params := Ok ["x"];
     fn_file := Ok "sample.py";
     fn_source := None;
     fn_call := fun args kwargs =>
       match args with
       | [x] => wrapper py env scale_fn [x; PInt 2; PInt 3] []
       | _ => raise (Exn "TypeError" "outer() takes exactly one argument")
       end |}.

(** The header and the footer of a report. *)
Definition report_header : list string :=
  [rule "="; "ExplainX - Function Execution Report"; rule "="; ""].

Definition report_footer : list string :=
  [rule "="; "End of ExplainX Report"; rule "="].

(** [def fail_after(x): scale(x, 2, 3); raise ValueError("bad input")], [scale]
    being decorated. *)
Definition fail_after_fn (py : pylib) (env : environ) : callable :=
  {| fn_name := "fail_after";
     fn_params := Ok ["x"];
     fn_file := Ok "/app/backend/functions/sample.py";
     fn_source := None;
     fn_call := fun args kwargs =>
       match args with
       | [x] =>
           run wrapper py env scale_fn [x; PInt 2; PInt 3] [];
           raise (Exn "ValueError" "bad input")
       | _ => raise (Exn "TypeError" "fail_after() takes exactly one argument")
       end |}.

(** One call from the empty store: [outer(5)], and what it leaves. *)
Definition outer_call : call :=
  {| callee := nesting_fn cpython (sample_env unreachable);
     call_args := [PInt 5]; call_kwargs := [] |}.

Definition nested_run : list (result pyval) * world :=
  call_sequence cpython (sample_env unreachable) [outer_call] empty_world.

(** [fail_after(5)] from the empty store. *)
Definition failed_nested_run : result pyval * world :=
  wrapper cpython (sample_env unreachable)
    (fail_after_fn cpython (sample_env unreachable)) [PInt 5] [] empty_world.
(** * Properties *)

(** ** Ordered dicts *)

Lemma dict_get_set_eq {A : Type} (k : string) (v : A) d :
  dict_get k (dict_set k v d) = Some v.
Proof.
  induction d as [|[k' v'] d IH]; simpl.
  - by rewrite String.eqb_refl.
  - destruct (String.eqb k' k) eqn:E; simpl; rewrite E; [done | exact IH].
Qed.

Lemma dict_get_set_ne {A : Type} (k k' : string) (v : A) d :
  k <> k' -> dict_get k' (dict_set k v d) = dict_get k' d.
Proof.
  intros Hne. induction d as [|[k0 v0] d IH]; simpl.
  - apply String.eqb_neq in Hne. by rewrite Hne.
  - destruct (String.eqb k0 k) eqn:E; simpl.
    + apply String.eqb_eq in E. subst k0.
      apply String.eqb_neq in Hne. by rewrite Hne.
    + destruct (String.eqb k0 k'); [done | exact IH].
Qed.

Lemma dict_get_None {A : Type} (k : string) (d : list (string * A)) :
  dict_get k d = None <-> k ∉ dict_keys d.
Proof.
  induction d as [|[k' v'] d IH]; simpl.
  - split; [intros _; apply not_elem_of_nil | done].
  - rewrite not_elem_of_cons. destruct (String.eqb k' k) eqn:E.
    + apply String.eqb_eq in E. subst. split; [done | intros [? _]; done].
    + apply String.eqb_neq in E. rewrite IH. split; [intros ?; split; [congruence | done] | tauto].
Qed.

Lemma dict_set_fresh {A : Type} (k : string) (v : A) d :
  k ∉ dict_keys d -> dict_set k v d = d ++ [(k, v)].
Proof.
  induction d as [|[k' v'] d IH]; simpl; [done |].
  rewrite not_elem_of_cons. intros [Hne Hnin].
  assert (String.eqb k' k = false) as -> by (apply String.eqb_neq; congruence).
  by rewrite IH.
Qed.

Lemma dict_keys_set {A : Type} (k k' : string) (v : A) d :
  k' ∈ dict_keys (dict_set k v d) <-> k' = k \/ k' ∈ dict_keys d.
Proof.
  induction d as [|[k0 v0] d IH]; simpl.
  - rewrite list_elem_of_singleton. split; [tauto | intros [?|H]; [done | inversion H]].
  - destruct (String.eqb k0 k) eqn:E; simpl.
    + apply String.eqb_eq in E. subst. rewrite !elem_of_cons. tauto.
    + rewrite !elem_of_cons, IH. tauto.
Qed.

Lemma dict_set_NoDup {A : Type} (k : string) (v : A) d :
  NoDup (dict_keys d) -> NoDup (dict_keys (dict_set k v d)).
Proof.
  induction d as [|[k0 v0] d IH]; simpl.
  - intros _. apply NoDup_singleton.
  - rewrite NoDup_cons. intros [Hnin Hnd].
    destruct (String.eqb k0 k) eqn:E; simpl.
    + by apply NoDup_cons.
    + apply NoDup_cons. split; [| by apply IH].
      rewrite dict_keys_set. apply String.eqb_neq in E. intros [?|?]; congruence.
Qed.

Lemma dict_keys_update {A : Type} (k : string) (d kw : list (string * A)) :
  k ∈ dict_keys (dict_update d kw) <-> k ∈ dict_keys d \/ k ∈ dict_keys kw.
Proof.
  revert d. induction kw as [|[k0 v0] kw IH]; intros d; simpl.
  - split; [tauto | intros [?|H]; [done | inversion H]].
  - unfold dict_update in *. simpl. rewrite IH, dict_keys_set, elem_of_cons. tauto.
Qed.

Lemma dict_update_NoDup {A : Type} (d kw : list (string * A)) :
  NoDup (dict_keys d) -> NoDup (dict_keys (dict_update d kw)).
Proof.
  revert d. induction kw as [|[k0 v0] kw IH]; intros d Hd; simpl; [done |].
  apply IH. by apply dict_set_NoDup.
Qed.

Lemma dict_get_update {A : Type} (k : string) (d kw : list (string * A)) :
  NoDup (dict_keys kw) ->
  dict_get k (dict_update d kw) =
  match dict_get k kw with Some v => Some v | None => dict_get k d end.
Proof.
  revert d. induction kw as [|[k0 v0] kw IH]; intros d Hnd; simpl; [done |].
  simpl in Hnd. apply NoDup_cons in Hnd as [Hnin Hnd].
  unfold dict_update in *. simpl. rewrite IH by done.
  destruct (String.eqb k0 k) eqn:E.
  - apply String.eqb_eq in E. subst k0.
    apply dict_get_None in Hnin. rewrite Hnin. apply dict_get_set_eq.
  - apply String.eqb_neq in E. by rewrite dict_get_set_ne.
Qed.

(** ** The call interceptor *)

Lemma wrapper_unfold py env fn args kwargs w :
  wrapper py env fn args kwargs w =
  match fn_params fn with
  | Raise e => (Raise e, tick w)
  | Ok params =>
      match fn_call fn args kwargs (tick w) with
      | (Raise e, w2) => (Raise e, w2)
      | (Ok res, w2) =>
          match fn_file fn with
          | Raise e => (Raise e, tick w2)
          | Ok f =>
              (Ok res,
               push (wrapper_record py fn f params args kwargs res
                       (now env (ticks w)) (now env (ticks w2))) (tick w2))
          end
      end
  end.
Proof.
  unfold wrapper, bind, datetime_now, lift, TRACE_append, ret, raise. simpl.
  destruct (fn_params fn) as [params|e]; [| done].
  destruct (fn_call fn args kwargs (tick w)) as [[res|e] w2]; [| done].
  destruct (fn_file fn) as [f|e]; done.
Qed.

Lemma last_record_push t w : last_record (push t w) = Some t.
Proof.
  unfold last_record, push. simpl. rewrite last_snoc.
  by apply list_lookup_middle.
Qed.

(** What a call that returns leaves behind: the record it appended. *)
Lemma wrapper_returns py env fn params args kwargs w res w' :
  fn_params fn = Ok params ->
  wrapper py env fn args kwargs w = (Ok res, w') ->
  exists f w2,
    fn_file fn = Ok f /\
    fn_call fn args kwargs (tick w) = (Ok res, w2) /\
    w' = push (wrapper_record py fn f params args kwargs res
                 (now env (ticks w)) (now env (ticks w2))) (tick w2).
Proof.
  intros Hp. rewrite wrapper_unfold, Hp.
  destruct (fn_call fn args kwargs (tick w)) as [[r|e] w2]; [| done].
  destruct (fn_file fn) as [f|e]; [| done].
  intros [= -> <-]. by exists f, w2.
Qed.

Lemma zip_keys (params : list string) (args : list pyval) :
  dict_keys (zip params args) = take (length args) params.
Proof.
  revert args. induction params as [|p params IH]; intros [|a args]; simpl; try done.
  by rewrite IH.
Qed.

Lemma bind_positional_zip params i args acc :
  NoDup params ->
  (forall k, k ∈ dict_keys acc -> k ∈ take i params) ->
  bind_positional params i args acc = acc ++ zip (drop i params) args.
Proof.
  intros Hnd. revert i acc. induction args as [|a args IH]; intros i acc Hacc; simpl.
  - destruct (drop i params); simpl; by rewrite app_nil_r.
  - destruct (params !! i) as [p|] eqn:Hi.
    + rewrite (drop_S _ _ _ Hi). simpl.
      assert (p ∉ dict_keys acc) as Hfresh.
      { intros Hin. apply Hacc, list_elem_of_lookup in Hin as [j Hj].
        apply lookup_take_Some in Hj as [Hj Hlt].
        pose proof (NoDup_lookup _ _ _ _ Hnd Hi Hj). lia. }
      rewrite dict_set_fresh by done. rewrite IH.
      * by rewrite <- app_assoc.
      * intros k. unfold dict_keys. rewrite map_app, elem_of_app. simpl.
        rewrite list_elem_of_singleton. intros [Hk | ->].
        -- apply Hacc in Hk. apply list_elem_of_lookup in Hk as [j Hj].
           apply lookup_take_Some in Hj as [Hj Hlt].
           apply list_elem_of_lookup. exists j. apply lookup_take_Some. split; [done | lia].
        -- apply list_elem_of_lookup. exists i. apply lookup_take_Some. split; [done | lia].
    + apply lookup_ge_None in Hi. rewrite (drop_ge _ _ Hi). simpl.
      rewrite IH.
      * rewrite drop_ge by lia. simpl. done.
      * intros k Hk. apply Hacc in Hk. rewrite take_ge in Hk by lia. rewrite take_ge by lia. done.
Qed.

(** For distinct parameter names, lines 36-40 pair the parameters with the
    positional arguments, in order and as far as both go, and then apply the
    named arguments. *)
Lemma build_inputs_zip params args kwargs :
  NoDup params ->
  build_inputs params args kwargs = dict_update (zip params args) kwargs.
Proof.
  intros Hnd. unfold build_inputs.
  rewrite bind_positional_zip; [done | done |].
  intros k Hk. inversion Hk.
Qed.

Lemma dict_get_zip params args i (p : string) (a : pyval) :
  NoDup params -> params !! i = Some p -> args !! i = Some a ->
  dict_get p (zip params args) = Some a.
Proof.
  revert args i. induction params as [|q params IH]; intros [|b args] [|i] Hnd Hp Ha;
    simplify_eq/=.
  - by rewrite String.eqb_refl.
  - apply NoDup_cons in Hnd as [Hq Hnd].
    destruct (String.eqb q p) eqn:E.
    + apply String.eqb_eq in E. subst q. exfalso. apply Hq.
      apply list_elem_of_lookup. eauto.
    + eauto.
Qed.

Ltac solve_NoDup :=
  repeat (apply NoDup_cons; split;
          [rewrite ?elem_of_cons, ?elem_of_nil; intuition discriminate |]);
  apply NoDup_nil_2.

(** C3, as the code has it.  When the wrapped callable raises, the wrapper
    raises the very same exception and appends no record for the call: the
    world is exactly the one the callable left.  The store and the trace
    dicts are as they were before the call when the callable itself left them
    alone, as a callable that makes no instrumented call does; the records of
    instrumented calls the callable made before it raised stay. *)
Theorem wrapper_propagates_failure py env fn params args kwargs w e w2 :
  fn_params fn = Ok params ->
  fn_call fn args kwargs (tick w) = (Raise e, w2) ->
  wrapper py env fn args kwargs w = (Raise e, w2)
  /\ TRACE (snd (wrapper py env fn args kwargs w)) = TRACE w2
  /\ heap (snd (wrapper py env fn args kwargs w)) = heap w2
  /\ (TRACE w2 = TRACE w -> heap w2 = heap w ->
      TRACE (snd (wrapper py env fn args kwargs w)) = TRACE w
      /\ heap (snd (wrapper py env fn args kwargs w)) = heap w)
  /\ (store_neutral fn ->
      TRACE (snd (wrapper py env fn args kwargs w)) = TRACE w
      /\ heap (snd (wrapper py env fn args kwargs w)) = heap w).
Proof.
  intros Hp Hcall. rewrite wrapper_unfold, Hp, Hcall. simpl.
  split; [done |]. split; [done |]. split; [done |]. split; [auto |].
  intros Hfn. destruct (Hfn args kwargs (tick w)) as [Hh Ht].
  rewrite Hcall in Hh, Ht. auto.
Qed.

Lemma wrapper_propagates_failure_witness :
  wrapper cpython (sample_env unreachable) reject_fn [PInt 1] [] empty_world
  = (Raise (Exn "ValueError" "bad input"), tick empty_world)
  /\ TRACE (snd (wrapper cpython (sample_env unreachable) reject_fn [PInt 1] []
                   empty_world)) = [].
Proof.
  destruct (wrapper_propagates_failure cpython (sample_env unreachable) reject_fn
              ["x"] [PInt 1] [] empty_world (Exn "ValueError" "bad input")
              (tick empty_world) eq_refl eq_refl) as (H1 & H2 & _).
  split; [exact H1 | exact H2].
Defined.

(** C3 as stated fails: [fail_after(5)] raises, and the store, empty before
    the call, holds one record after it, that of the instrumented call the
    callable made before it raised. *)
Lemma wrapper_failure_counterexample :
  fst failed_nested_run = Raise (Exn "ValueError" "bad input")
  /\ TRACE empty_world = []
  /\ TRACE (snd failed_nested_run) = [0%nat]
  /\ function <$> heap (snd failed_nested_run) !! 0%nat = Some "scale".
Proof. repeat split; vm_compute; reflexivity. Qed.

(** C5. The record of a call that returns has the inputs of lines 36-40: the
    declared parameters paired in order with the positional arguments, as far
    as both go, then the named arguments.  So a positional argument is found
    under the parameter at its position unless a named argument has that
    name, a named argument is found under its own name, and a call with
    positional arguments (a, b) and named argument c = v against parameters
    (x, y, c) records {x: a, y: b, c: v}. *)
Theorem wrapper_binds_arguments py env fn params args kwargs w res w' :
  fn_params fn = Ok params ->
  NoDup params ->
  NoDup (dict_keys kwargs) ->
  wrapper py env fn args kwargs w = (Ok res, w') ->
  exists t,
    last_record w' = Some t
    /\ inputs t = dict_update (zip params args) kwargs
    /\ (forall i p a, params !! i = Some p -> args !! i = Some a ->
                      p ∉ dict_keys kwargs -> dict_get p (inputs t) = Some a)
    /\ (forall k v, dict_get k kwargs = Some v -> dict_get k (inputs t) = Some v)
    /\ (forall x y c a b v,
          params = [x; y; c] -> args = [a; b] -> kwargs = [(c, v)] ->
          inputs t = [(x, a); (y, b); (c, v)]).
Proof.
  intros Hp Hnd Hkw Hrun.
  destruct (wrapper_returns _ _ _ _ _ _ _ _ _ Hp Hrun) as (f & w2 & _ & _ & ->).
  eexists. split; [apply last_record_push |].
  simpl. rewrite build_inputs_zip by done.
  split; [done |]. split; [| split].
  - intros i p a Hi Ha Hfresh. rewrite dict_get_update by done.
    apply dict_get_None in Hfresh. rewrite Hfresh. by eapply dict_get_zip.
  - intros k v Hk. rewrite dict_get_update by done. by rewrite Hk.
  - intros x y c a b v -> -> ->.
    apply NoDup_cons in Hnd as [Hx Hnd]. apply NoDup_cons in Hnd as [Hy _].
    rewrite !not_elem_of_cons in Hx. rewrite not_elem_of_cons in Hy.
    destruct Hx as (_ & Hxc & _). destruct Hy as (Hyc & _).
    unfold dict_update. simpl.
    apply String.eqb_neq in Hxc, Hyc. by rewrite Hxc, Hyc.
Qed.

Lemma wrapper_binds_arguments_witness :
  exists t,
    last_record (snd (wrapper cpython (sample_env unreachable) scale_fn
                        [PInt 1; PInt 2] [("c", PInt 3)] empty_world)) = Some t
    /\ inputs t = [("x", PInt 1); ("y", PInt 2); ("c", PInt 3)].
Proof.
  destruct (wrapper_binds_arguments cpython (sample_env unreachable) scale_fn
              ["x"; "y"; "c"] [PInt 1; PInt 2] [("c", PInt 3)] empty_world PNone
              (snd (wrapper cpython (sample_env unreachable) scale_fn
                      [PInt 1; PInt 2] [("c", PInt 3)] empty_world))
              eq_refl ltac:(solve_NoDup) ltac:(solve_NoDup) eq_refl)
    as (t & Ht & _ & _ & _ & Hex).
  exists t. split; [exact Ht | exact (Hex _ _ _ _ _ _ eq_refl eq_refl eq_refl)].
Defined.

(** C7, as the code has it.  When a call supplies no more positional
    arguments than the callable declares parameters, and names only declared
    parameters, the keys of the recorded inputs are distinct and are exactly
    the declared parameters that the call supplied, by position or by name;
    every positional argument has its parameter among them. *)
Theorem wrapper_inputs_keys py env fn params args kwargs w res w' :
  fn_params fn = Ok params ->
  NoDup params ->
  (length args <= length params)%nat ->
  (forall k, k ∈ dict_keys kwargs -> k ∈ params) ->
  wrapper py env fn args kwargs w = (Ok res, w') ->
  exists t,
    last_record w' = Some t
    /\ NoDup (dict_keys (inputs t))
    /\ (forall k, k ∈ dict_keys (inputs t) <->
                  k ∈ params /\ (k ∈ take (length args) params \/ k ∈ dict_keys kwargs))
    /\ (forall i a, args !! i = Some a ->
                    exists p, params !! i = Some p /\ p ∈ dict_keys (inputs t)).
Proof.
  intros Hp Hnd Hlen Hdecl Hrun.
  destruct (wrapper_returns _ _ _ _ _ _ _ _ _ Hp Hrun) as (f & w2 & _ & _ & ->).
  eexists. split; [apply last_record_push |].
  simpl. rewrite build_inputs_zip by done.
  split; [| split].
  - apply dict_update_NoDup. rewrite zip_keys.
    eapply sublist_NoDup; [| apply sublist_take]. done.
  - intros k. rewrite dict_keys_update, zip_keys. split.
    + intros [Hk | Hk]; (split; [| tauto]).
      * apply elem_of_take in Hk as (i & Hi & _). apply list_elem_of_lookup. eauto.
      * by apply Hdecl.
    + tauto.
  - intros i a Ha.
    destruct (lookup_lt_is_Some_2 params i) as [p Hi].
    { apply lookup_lt_Some in Ha. lia. }
    exists p. split; [done |].
    rewrite dict_keys_update, zip_keys. left.
    apply list_elem_of_lookup. exists i. apply lookup_take_Some.
    split; [done |]. by eapply lookup_lt_Some.
Qed.

Lemma wrapper_inputs_keys_witness :
  exists t,
    last_record (snd (wrapper cpython (sample_env unreachable) scale_fn
                        [PInt 1; PInt 2] [("c", PInt 3)] empty_world)) = Some t
    /\ NoDup (dict_keys (inputs t)).
Proof.
  destruct (wrapper_inputs_keys cpython (sample_env unreachable) scale_fn
              ["x"; "y"; "c"] [PInt 1; PInt 2] [("c", PInt 3)] empty_world PNone
              (snd (wrapper cpython (sample_env unreachable) scale_fn
                      [PInt 1; PInt 2] [("c", PInt 3)] empty_world))
              eq_refl ltac:(solve_NoDup) ltac:(simpl; lia)
              ltac:(simpl; intros k; rewrite !elem_of_cons; tauto) eq_refl)
    as (t & Ht & Hnd & _).
  exists t. split; [exact Ht | exact Hnd].
Defined.

(** C7 as stated fails for callables with variadic parameters.  [collect]
    declares the single parameter [xs] and is called with two positional
    arguments: the call returns and its record keeps the first argument only.
    [options] declares the single parameter [kw] and is called with the named
    argument [a]: the call returns and its record has the key [a], which is
    not a declared parameter. *)
Lemma wrapper_inputs_keys_counterexample :
  (fn_params collect_fn = Ok ["xs"]
   /\ fst (wrapper cpython (sample_env unreachable) collect_fn
             [PInt 1; PInt 2] [] empty_world) = Ok (PInt 2)
   /\ inputs <$> last_record
        (snd (wrapper cpython (sample_env unreachable) collect_fn
                [PInt 1; PInt 2] [] empty_world))
      = Some [("xs", PInt 1)])
  /\ (fn_params options_fn = Ok ["kw"]
      /\ fst (wrapper cpython (sample_env unreachable) options_fn
                [] [("a", PInt 1)] empty_world) = Ok (PInt 1)
      /\ inputs <$> last_record
           (snd (wrapper cpython (sample_env unreachable) options_fn
                   [] [("a", PInt 1)] empty_world))
         = Some [("a", PInt 1)]).
Proof. repeat split; vm_compute; reflexivity. Qed.

(** ** The trace store *)

Lemma call_sequence_appends py env calls w outs w1 :
  Forall (fun c => store_neutral (callee c)) calls ->
  call_sequence py env calls w = (outs, w1) ->
  Forall (fun r => is_ok r = true) outs ->
  exists new,
    heap w1 = heap w ++ new
    /\ TRACE w1 = TRACE w ++ seq (length (heap w)) (length new)
    /\ length new = length calls
    /\ length outs = length calls
    /\ (forall i c, calls !! i = Some c ->
          exists r, outs !! i = Some r
                    /\ records_call (heap w1) c r (length (heap w) + i)%nat).
Proof.
  revert w outs w1. induction calls as [|c calls IH]; intros w outs w1 Hneu Hrun Hok.
  - simpl in Hrun. injection Hrun as <- <-. exists []. simpl.
    rewrite !app_nil_r. repeat split; done.
  - simpl in Hrun. apply Forall_cons in Hneu as [Hc Hneu].
    destruct (wrapper py env (callee c) (call_args c) (call_kwargs c) w) as [r wa] eqn:Hw.
    destruct (call_sequence py env calls wa) as [rs wb] eqn:Hrest.
    injection Hrun as <- <-. apply Forall_cons in Hok as [Hr Hok].
    destruct r as [res|e]; [| done].
    destruct (fn_params (callee c)) as [params|e] eqn:Hp.
    2:{ rewrite wrapper_unfold, Hp in Hw. done. }
    destruct (wrapper_returns _ _ _ _ _ _ _ _ _ Hp Hw) as (f & w2 & Hf & Hcall & ->).
    destruct (Hc (call_args c) (call_kwargs c) (tick w)) as [Hh Ht].
    rewrite Hcall in Hh, Ht. simpl in Hh, Ht.
    destruct (IH _ _ _ Hneu Hrest Hok) as (new & Hheap & Htrace & Hlen & Hlen' & Hrec).
    simpl in Hheap, Htrace, Hrec. rewrite Hh, Ht in *.
    rewrite length_app in *. simpl in *.
    eexists (_ :: new). split; [| split; [| split; [| split]]].
    + rewrite Hheap, <- app_assoc. done.
    + rewrite Htrace, <- app_assoc. simpl. do 3 f_equal. lia.
    + simpl. lia.
    + simpl. lia.
    + intros [|i] c' Hc'; simplify_eq/=.
      * eexists. split; [done |]. eexists _, params.
        split; [| split; [done | split; [| split]]].
        -- rewrite Hheap, Nat.add_0_r, <- app_assoc. by apply list_lookup_middle.
        -- done.
        -- done.
        -- done.
      * destruct (Hrec _ _ Hc') as (r & Hr' & Hrc). exists r. split; [done |].
        replace (length (heap w) + S i)%nat with (length (heap w) + 1 + i)%nat by lia.
        done.
Qed.

Lemma records_call_app h h' c r l :
  records_call h c r l -> records_call (h ++ h') c r l.
Proof.
  intros (t & params & Hl & H). exists t, params. split; [| done].
  rewrite lookup_app_l; [done | by eapply lookup_lt_Some].
Qed.

(** A call that raises, made to a callable that leaves the store alone,
    leaves the store and the trace dicts as they were. *)
Lemma wrapper_raises_neutral py env fn args kwargs w e wa :
  store_neutral fn ->
  wrapper py env fn args kwargs w = (Raise e, wa) ->
  heap wa = heap w /\ TRACE wa = TRACE w.
Proof.
  intros Hfn. rewrite wrapper_unfold.
  destruct (fn_params fn) as [params|e0]; [| by intros [= _ <-]].
  destruct (Hfn args kwargs (tick w)) as [Hh Ht].
  destruct (fn_call fn args kwargs (tick w)) as [[res|e0] w2]; simpl in Hh, Ht.
  - destruct (fn_file fn) as [f|e1]; [done |]. by intros [= _ <-].
  - by intros [= _ <-].
Qed.

Lemma call_sequence_records py env calls w outs w1 :
  Forall (fun c => store_neutral (callee c)) calls ->
  call_sequence py env calls w = (outs, w1) ->
  exists new,
    heap w1 = heap w ++ new
    /\ TRACE w1 = TRACE w ++ seq (length (heap w)) (length new)
    /\ Forall2 (fun l cr => records_call (heap w1) (fst cr) (snd cr) l)
         (seq (length (heap w)) (length new)) (returned calls outs).
Proof.
  revert w outs w1. induction calls as [|c calls IH]; intros w outs w1 Hneu Hrun.
  - simpl in Hrun. injection Hrun as <- <-. exists []. simpl.
    rewrite !app_nil_r. split; [done |]. split; [done |]. constructor.
  - simpl in Hrun. apply Forall_cons in Hneu as [Hc Hneu].
    destruct (wrapper py env (callee c) (call_args c) (call_kwargs c) w) as [r wa] eqn:Hw.
    destruct (call_sequence py env calls wa) as [rs wb] eqn:Hrest.
    injection Hrun as <- <-.
    destruct (IH _ _ _ Hneu Hrest) as (new & Hheap & Htrace & Hrec).
    destruct r as [res|e].
    + destruct (fn_params (callee c)) as [params|e] eqn:Hp.
      2:{ rewrite wrapper_unfold, Hp in Hw. done. }
      destruct (wrapper_returns _ _ _ _ _ _ _ _ _ Hp Hw) as (f & w2 & Hf & Hcall & ->).
      destruct (Hc (call_args c) (call_kwargs c) (tick w)) as [Hh Ht].
      rewrite Hcall in Hh, Ht. simpl in Hh, Ht.
      simpl in Hheap, Htrace, Hrec. rewrite Hh, Ht in *.
      rewrite length_app in *. simpl in *.
      eexists (_ :: new). split; [| split].
      * rewrite Hheap, <- app_assoc. done.
      * rewrite Htrace, <- app_assoc. simpl. do 3 f_equal. lia.
      * unfold returned. simpl. constructor.
        -- simpl. eexists _, params.
           split; [| split; [done | split; [| split]]].
           ++ rewrite Hheap, <- app_assoc. by apply list_lookup_middle.
           ++ done.
           ++ done.
           ++ done.
        -- replace (S (length (heap w))) with (length (heap w) + 1)%nat by lia.
           exact Hrec.
    + destruct (wrapper_raises_neutral _ _ _ _ _ _ _ _ Hc Hw) as [Hh Ht].
      rewrite Hh, Ht in *. exists new. done.
Qed.

(** C2, as the code has it.  Starting from an empty store, after N
    instrumented calls made one after the other to callables that make no
    instrumented call of their own, [pop_traces] returns one reference for
    each call that returned, in call order, each to the record of its call
    and no two the same: N references when all N calls returned, the i-th
    being the record of the i-th call.  It leaves the store empty, so that
    the next [pop_traces] returns the empty list.  Whatever the callable, the
    record of a call that returns is appended when the call returns, behind
    everything the callable left in the store. *)
Theorem pop_traces_returns_calls_in_order py env calls w outs w1 :
  TRACE w = [] ->
  Forall (fun c => store_neutral (callee c)) calls ->
  call_sequence py env calls w = (outs, w1) ->
  exists ls w2,
    pop_traces w1 = (Ok ls, w2)
    /\ Forall2 (fun l cr => records_call (heap w2) (fst cr) (snd cr) l)
         ls (returned calls outs)
    /\ NoDup ls
    /\ (Forall (fun r => is_ok r = true) outs ->
        length ls = length calls
        /\ (forall i c, calls !! i = Some c ->
              exists l r, ls !! i = Some l /\ outs !! i = Some r
                          /\ records_call (heap w2) c r l))
    /\ TRACE w2 = []
    /\ pop_traces w2 = (Ok [], w2)
    /\ (forall c w0 res w',
          wrapper py env (callee c) (call_args c) (call_kwargs c) w0 = (Ok res, w') ->
          exists wc,
            fn_call (callee c) (call_args c) (call_kwargs c) (tick w0) = (Ok res, wc)
            /\ TRACE w' = TRACE wc ++ [length (heap wc)]
            /\ records_call (heap w') c (Ok res) (length (heap wc))).
Proof.
  intros Hempty Hneu Hrun.
  destruct (call_sequence_records _ _ _ _ _ _ Hneu Hrun) as (new & Hheap & Htrace & Hall).
  rewrite Hempty in Htrace. simpl in Htrace.
  exists (TRACE w1), (emptied w1). split; [done |].
  split; [by rewrite Htrace |].
  split; [rewrite Htrace; apply NoDup_seq |].
  split; [| split; [done | split; [done |]]].
  2:{ intros c w0 res w' Hw.
      destruct (fn_params (callee c)) as [params|e] eqn:Hp.
      2:{ rewrite wrapper_unfold, Hp in Hw. done. }
      destruct (wrapper_returns _ _ _ _ _ _ _ _ _ Hp Hw) as (f & wc & Hf & Hcall & ->).
      exists wc. split; [done |]. split; [done |].
      eexists _, params. split; [by apply list_lookup_middle |]. done. }
  intros Hok.
  destruct (call_sequence_appends _ _ _ _ _ _ Hneu Hrun Hok)
    as (new' & Hheap' & Htrace' & Hlen & _ & Hrec).
  rewrite Hempty in Htrace'. simpl in Htrace'.
  split; [by rewrite Htrace', length_seq |].
  intros i c Hc. destruct (Hrec _ _ Hc) as (r & Hr & Hrc).
  exists (length (heap w) + i)%nat, r. split; [| done].
  rewrite Htrace'. apply lookup_seq. split; [done |].
  apply lookup_lt_Some in Hc. lia.
Qed.

Lemma named_fn_neutral name params body : store_neutral (named_fn name params body).
Proof.
  intros args kwargs w. simpl.
  destruct (bind_named params args kwargs) as [bound|]; [| done].
  by destruct (body bound).
Qed.

Lemma pop_traces_returns_calls_in_order_witness :
  exists ls w2,
    pop_traces (snd (call_sequence cpython (sample_env unreachable) two_calls
                       empty_world)) = (Ok ls, w2)
    /\ length ls = 2%nat
    /\ TRACE w2 = [].
Proof.
  destruct (pop_traces_returns_calls_in_order cpython (sample_env unreachable)
              two_calls empty_world
              (fst (call_sequence cpython (sample_env unreachable) two_calls empty_world))
              (snd (call_sequence cpython (sample_env unreachable) two_calls empty_world))
              eq_refl
              ltac:(repeat constructor; apply named_fn_neutral)
              eq_refl)
    as (ls & w2 & Hpop & _ & _ & Hok & Hempty & _).
  exists ls, w2. split; [exact Hpop |]. split; [| exact Hempty].
  exact (proj1 (Hok ltac:(repeat constructor))).
Defined.

(** C2 as stated fails: the one call [outer(5)], made from the empty store,
    returns, and [pop_traces] then returns two records, not one.  The first
    is the record of the instrumented call that [outer] made, the second the
    record of [outer], although [outer] was called first, as the start times
    show: a record is appended when its call returns. *)
Lemma pop_traces_counterexample :
  fst nested_run = [Ok PNone]
  /\ fst (pop_traces (snd nested_run)) = Ok [0%nat; 1%nat]
  /\ function <$> heap (snd nested_run) !! 0%nat = Some "scale"
  /\ function <$> heap (snd nested_run) !! 1%nat = Some "outer"
  /\ start_time <$> heap (snd nested_run) !! 0%nat = Some "2025-11-04T07:25:30.001000"
  /\ start_time <$> heap (snd nested_run) !! 1%nat = Some "2025-11-04T07:25:30".
Proof. repeat split; vm_compute; reflexivity. Qed.

(** ** The prompt builder *)

(** The decorated prompt builder: the text is that of the undecorated body;
    a build that succeeds goes through [wrapper] and leaves its own record. *)
Lemma generate_explanation_prompt_unfold py env tr w :
  generate_explanation_prompt py env tr w =
  match prompt_text py (heap w) tr with
  | Ok p =>
      (Ok p,
       push (wrapper_record py (prompt_fn py env) (llm_file env) ["trace"] [tr] [] p
               (now env (ticks w)) (now env (S (ticks w))))
            (tick (tick w)))
  | Raise e => (Raise e, tick w)
  end.
Proof.
  unfold generate_explanation_prompt. rewrite wrapper_unfold. simpl.
  by destruct (prompt_text py (heap w) tr).
Qed.

(** C4, as the code has it.  The prompt text is a function of the trace
    dicts alone, but the prompt builder is itself decorated with [explainX]:
    a build that succeeds appends one record to the store, the record of the
    prompt-builder call, with the trace as its input and the prompt as its
    output, and changes no dict that existed; a build that raises leaves the
    dicts and the store as they were. *)
Theorem prompt_builder_effect py env tr w :
  match prompt_text py (heap w) tr with
  | Ok p =>
      exists r,
        generate_explanation_prompt py env tr w
        = (Ok p, push r (tick (tick w)))
        /\ TRACE (snd (generate_explanation_prompt py env tr w))
           = TRACE w ++ [length (heap w)]
        /\ heap (snd (generate_explanation_prompt py env tr w)) = heap w ++ [r]
        /\ function r = "generate_explanation_prompt"
        /\ inputs r = [("trace", tr)]
        /\ output r = p
        /\ explanation r = PNone
  | Raise e =>
      generate_explanation_prompt py env tr w = (Raise e, tick w)
      /\ TRACE (snd (generate_explanation_prompt py env tr w)) = TRACE w
      /\ heap (snd (generate_explanation_prompt py env tr w)) = heap w
  end.
Proof.
  rewrite generate_explanation_prompt_unfold.
  destruct (prompt_text py (heap w) tr) as [p|e]; simpl.
  - eexists. repeat split; reflexivity.
  - repeat split; reflexivity.
Qed.

(** C4 as stated fails: the store is empty before the prompt for the dict at
    0 is built, the build succeeds, and the store holds a new record after it. *)
Lemma prompt_builder_counterexample :
  TRACE drained_world = []
  /\ is_ok (fst (generate_explanation_prompt cpython (sample_env unreachable)
                   (PRef 0%nat) drained_world)) = true
  /\ TRACE (snd (generate_explanation_prompt cpython (sample_env unreachable)
                   (PRef 0%nat) drained_world)) = [1%nat]
  /\ function <$> last_record
       (snd (generate_explanation_prompt cpython (sample_env unreachable)
               (PRef 0%nat) drained_world))
     = Some "generate_explanation_prompt".
Proof. repeat split; vm_compute; reflexivity. Qed.

(** ** The explanation chain *)

Lemma string_app_assoc (s1 s2 s3 : string) :
  (s1 +:+ s2) +:+ s3 = s1 +:+ (s2 +:+ s3).
Proof.
  induction s1 as [|c s1 IH]; [done |].
  change (String c ((s1 +:+ s2) +:+ s3) = String c (s1 +:+ (s2 +:+ s3))).
  by rewrite IH.
Qed.

Lemma openrouter_key_set : String.eqb OPENROUTER_API_KEY "" = false.
Proof. reflexivity. Qed.

(** One run of lines 132-148 on a trace whose prompt builds. *)
Lemma explain_single_trace_unfold py env l w t p :
  heap w !! l = Some t ->
  prompt_text py (heap w) (PRef l) = Ok p ->
  let w1 :=
    push (wrapper_record py (prompt_fn py env) (llm_file env) ["trace"] [PRef l] [] p
            (now env (ticks w)) (now env (S (ticks w))))
         (tick (tick w)) in
  let e1 :=
    if String.eqb (DEEPSEEK_API_KEY env) "" then PNone
    else provider_result (http_post env (net_log w) (deepseek_request env p)) in
  let w2 :=
    if String.eqb (DEEPSEEK_API_KEY env) "" then w1
    else posted (deepseek_request env p) w1 in
  let e2 :=
    if truthy e1 then e1
    else provider_result (http_post env (net_log w2) (openrouter_request p)) in
  let w3 := if truthy e1 then w2 else posted (openrouter_request p) w2 in
  let e3 :=
    if truthy e2 then e2
    else PStr (generate_fallback_explanation py (heap w1) t) in
  explain_single_trace py env l w = (Ok (PRef l), explained l e3 w3).
Proof.
  intros Ht Hp w1 e1 w2 e2 w3 e3.
  assert (heap w1 !! l = Some t) as Ht1.
  { unfold w1. simpl. rewrite lookup_app_l; [done | by eapply lookup_lt_Some]. }
  assert (heap w3 = heap w1) as Hh3.
  { unfold w3, w2. destruct (truthy e1), (String.eqb (DEEPSEEK_API_KEY env) ""); done. }
  unfold explain_single_trace, bind.
  rewrite generate_explanation_prompt_unfold, Hp. fold w1.
  unfold call_deepseek, call_openrouter, bind, ret, client_post.
  rewrite openrouter_key_set.
  subst e3 w3 e2 w2 e1.
  destruct (String.eqb (DEEPSEEK_API_KEY env) "") eqn:Hkey; simpl.
  - destruct (truthy (provider_result (http_post env (net_log w) (openrouter_request p))))
      eqn:Ht2; simpl.
    + unfold store_explanation. done.
    + unfold fallback_of, store_explanation. simpl in Ht1. simpl. rewrite Ht1. done.
  - destruct (truthy (provider_result (http_post env (net_log w) (deepseek_request env p))))
      eqn:Hd; simpl.
    + rewrite Hd. simpl. unfold store_explanation. done.
    + destruct (truthy (provider_result
                          (http_post env (net_log w ++ [deepseek_request env p])
                             (openrouter_request p)))) eqn:Ht2; simpl.
      * unfold store_explanation. done.
      * unfold fallback_of, store_explanation. simpl in Ht1. simpl. rewrite Ht1. done.
Qed.

Lemma fallback_truthy py h t :
  truthy (PStr (generate_fallback_explanation py h t)) = true.
Proof. reflexivity. Qed.

Lemma fallback_mentions py h t :
  exists pre mid,
    generate_fallback_explanation py h t
    = pre +:+ function t +:+ mid +:+ format_2f py (duration_ms t) +:+ "ms.".
Proof.
  exists "The function '".
  exists ("' was called with inputs: "
          +:+ join ", " (map (fun item => fst item +:+ "=" +:+ py_str py h (snd item))
                           (inputs t))
          +:+ ". It processed these values and returned: "
          +:+ py_str py h (output t) +:+ ". Execution took ").
  unfold generate_fallback_explanation.
  rewrite !string_app_assoc. reflexivity.
Qed.

Lemma truthy_not_none e : truthy e = true -> e <> PNone.
Proof. by intros H ->. Qed.

Lemma truthy_not_empty e : truthy e = true -> e <> PStr "".
Proof. by intros H ->. Qed.

Lemma failed_reply_falsy r : failed_reply r -> truthy (provider_result r) = false.
Proof.
  destruct r as [e|status json]; simpl; [done |].
  intros [Hs | Hj].
  - apply Z.eqb_neq in Hs. by rewrite Hs.
  - destruct (status =? 200); [| done].
    destruct json as [data|e]; [| done]. by rewrite Hj.
Qed.

Lemma chain_choice_truthy py h t e1 e2 :
  truthy (chain_choice e1 e2 (PStr (generate_fallback_explanation py h t))) = true.
Proof.
  unfold chain_choice. destruct (truthy e1) eqn:H1; [done |].
  destruct (truthy e2) eqn:H2; [done | reflexivity].
Qed.

(** Lines 132-148 on a trace whose prompt builds: the requests that go out,
    the text that is kept, and the world that results. *)
Lemma explain_single_trace_spec py env l w t p :
  heap w !! l = Some t ->
  prompt_text py (heap w) (PRef l) = Ok p ->
  let r := wrapper_record py (prompt_fn py env) (llm_file env) ["trace"] [PRef l] [] p
             (now env (ticks w)) (now env (S (ticks w))) in
  let configured := negb (String.eqb (DEEPSEEK_API_KEY env) "") in
  let e1 :=
    if configured
    then provider_result (http_post env (net_log w) (deepseek_request env p))
    else PNone in
  let log1 :=
    if configured then net_log w ++ [deepseek_request env p] else net_log w in
  let e2 := provider_result (http_post env log1 (openrouter_request p)) in
  let e := chain_choice e1 e2
             (PStr (generate_fallback_explanation py (heap w ++ [r]) t)) in
  explain_single_trace py env l w =
  (Ok (PRef l),
   {| heap := alter (set_explanation e) l (heap w ++ [r]);
      TRACE := TRACE w ++ [length (heap w)];
      ticks := S (S (ticks w));
      net_log := if truthy e1 then log1 else log1 ++ [openrouter_request p] |}).
Proof.
  intros Ht Hp. cbv zeta.
  rewrite (explain_single_trace_unfold py env l w t p Ht Hp).
  unfold chain_choice, explained.
  destruct (String.eqb (DEEPSEEK_API_KEY env) "") eqn:Hkey; simpl.
  - destruct (truthy (provider_result _)); reflexivity.
  - destruct (truthy (provider_result
                        (http_post env (net_log w) (deepseek_request env p)))) eqn:H1;
      simpl.
    + rewrite H1. reflexivity.
    + destruct (truthy (provider_result _)); reflexivity.
Qed.

Lemma explain_single_trace_raises py env l w e :
  prompt_text py (heap w) (PRef l) = Raise e ->
  explain_single_trace py env l w = (Raise e, tick w).
Proof.
  intros Hp. unfold explain_single_trace, bind.
  by rewrite generate_explanation_prompt_unfold, Hp.
Qed.

(** What a run on a trace whose prompt builds stores: a truthy value, the
    fallback text when no provider gave a usable text. *)
Lemma explain_single_trace_stores py env l w t p :
  heap w !! l = Some t ->
  prompt_text py (heap w) (PRef l) = Ok p ->
  exists w' e r,
    explain_single_trace py env l w = (Ok (PRef l), w')
    /\ heap w' !! l = Some (set_explanation e t)
    /\ truthy e = true
    /\ ((forall log reply, truthy (provider_result (http_post env log reply)) = false) ->
        e = PStr (generate_fallback_explanation py (heap w ++ [r]) t)).
Proof.
  intros Ht Hp. pose proof (explain_single_trace_spec py env l w t p Ht Hp) as H.
  cbv zeta in H. eexists _, _, _. split; [exact H |].
  split; [| split].
  - simpl. rewrite list_lookup_alter_eq.
    rewrite lookup_app_l by (by eapply lookup_lt_Some). by rewrite Ht.
  - apply chain_choice_truthy.
  - intros Hfail. unfold chain_choice.
    rewrite (Hfail _ (openrouter_request p)).
    destruct (negb (String.eqb (DEEPSEEK_API_KEY env) "")); [by rewrite Hfail | done].
Qed.

(** C1, as the code has it.  For every trace whose prompt can be built
    (its inputs and output are JSON-serialisable), [explain_single_trace]
    returns the trace with the explanation set, all other fields as before,
    to a value that is truthy and so is neither None nor empty; and when no
    provider yields a usable text, the explanation is the fallback text,
    which contains the function name and the [.2f] rendering of
    [duration_ms] followed by [ms.]. *)
Theorem explain_total_when_prompt_builds py env l w t p :
  heap w !! l = Some t ->
  prompt_text py (heap w) (PRef l) = Ok p ->
  exists w' e,
    explain_single_trace py env l w = (Ok (PRef l), w')
    /\ heap w' !! l = Some (set_explanation e t)
    /\ truthy e = true
    /\ e <> PNone
    /\ ((forall log reply, truthy (provider_result (http_post env log reply)) = false) ->
        exists pre mid,
          e = PStr (pre +:+ function t +:+ mid
                    +:+ format_2f py (duration_ms t) +:+ "ms.")).
Proof.
  intros Ht Hp.
  destruct (explain_single_trace_stores py env l w t p Ht Hp)
    as (w' & e & r & Hrun & Hl & Htruthy & Hfb).
  exists w', e. repeat split; try done.
  - by apply truthy_not_none.
  - intros Hfail. rewrite (Hfb Hfail).
    destruct (fallback_mentions py (heap w ++ [r]) t) as (pre & mid & Heq).
    exists pre, mid. by rewrite Heq.
Qed.

Lemma explain_total_when_prompt_builds_witness :
  exists w' e,
    explain_single_trace cpython (sample_env unreachable) 0%nat drained_world
    = (Ok (PRef 0%nat), w')
    /\ explanation <$> heap w' !! 0%nat = Some e
    /\ truthy e = true.
Proof.
  destruct (explain_total_when_prompt_builds cpython (sample_env unreachable) 0%nat
              drained_world
              {| function := "scale"; file := "/app/backend/functions/sample.py";
                 inputs := [("x", PInt 1); ("y", PInt 2); ("c", PInt 3)];
                 output := PNone; code := source_unavailable;
                 start_time := "2025-11-04T07:25:30";
                 end_time := "2025-11-04T07:25:30.001000";
                 duration_ms := 1%float; explanation := PNone |}
              (prompt_of cpython drained_world 0%nat)
              ltac:(vm_compute; reflexivity) ltac:(vm_compute; reflexivity))
    as (w' & e & Hrun & Hl & Htruthy & _).
  exists w', e. split; [exact Hrun |]. split; [| exact Htruthy].
  rewrite Hl. reflexivity.
Defined.

(** C1 as stated fails: the record of [collect({1, 2})] has a set among its
    inputs; building its prompt raises TypeError, which leaves
    [explain_single_trace], and the explanation stays None. *)
Lemma explain_total_counterexample :
  inputs <$> heap set_call_world !! 0%nat = Some [("xs", a_set)]
  /\ fst (explain_single_trace cpython (sample_env unreachable) 0%nat set_call_world)
     = Raise (Exn "TypeError" "Object of type set is not JSON serializable")
  /\ explanation <$>
       heap (snd (explain_single_trace cpython (sample_env unreachable) 0%nat
                    set_call_world)) !! 0%nat
     = Some PNone.
Proof. repeat split; vm_compute; reflexivity. Qed.

(** C6, as the code has it.  When the prompt of a trace cannot be built no
    request goes out.  Otherwise the chain posts to DeepSeek first, once, and
    only when a DeepSeek key is set; it posts to OpenRouter next, once,
    exactly when DeepSeek gave no truthy text; both requests carry the timeout
    30; a reply that raised, has a status other than 200 or lacks the expected
    JSON shape gives no text; and the explanation is the first truthy one of
    DeepSeek's text, OpenRouter's text and the fallback text. *)
Theorem chain_attempts_in_order py env l w t :
  heap w !! l = Some t ->
  match prompt_text py (heap w) (PRef l) with
  | Raise e =>
      explain_single_trace py env l w = (Raise e, tick w)
      /\ net_log (snd (explain_single_trace py env l w)) = net_log w
  | Ok p =>
      let configured := negb (String.eqb (DEEPSEEK_API_KEY env) "") in
      let e1 :=
        if configured
        then provider_result (http_post env (net_log w) (deepseek_request env p))
        else PNone in
      let log1 :=
        if configured then net_log w ++ [deepseek_request env p] else net_log w in
      let e2 := provider_result (http_post env log1 (openrouter_request p)) in
      exists w' r,
        explain_single_trace py env l w = (Ok (PRef l), w')
        /\ net_log w' = (if truthy e1 then log1 else log1 ++ [openrouter_request p])
        /\ heap w' !! l
           = Some (set_explanation
                     (if truthy e1 then e1
                      else if truthy e2 then e2
                      else PStr (generate_fallback_explanation py (heap w ++ [r]) t)) t)
        /\ req_url (deepseek_request env p) = DEEPSEEK_API_URL
        /\ req_url (openrouter_request p) = OPENROUTER_API_URL
        /\ req_timeout (deepseek_request env p) = 30%float
        /\ req_timeout (openrouter_request p) = 30%float
        /\ (forall reply, failed_reply reply -> truthy (provider_result reply) = false)
  end.
Proof.
  intros Ht. destruct (prompt_text py (heap w) (PRef l)) as [p|e] eqn:Hp.
  - cbv zeta.
    pose proof (explain_single_trace_spec py env l w t p Ht Hp) as H.
    cbv zeta in H. eexists _, _. split; [exact H |].
    split; [reflexivity |]. split.
    { simpl. rewrite list_lookup_alter_eq.
      rewrite lookup_app_l by (by eapply lookup_lt_Some). rewrite Ht. reflexivity. }
    repeat split; try reflexivity. apply failed_reply_falsy.
  - by rewrite (explain_single_trace_raises py env l w e Hp).
Qed.

Lemma chain_attempts_in_order_witness :
  exists w',
    explain_single_trace cpython down_then_text_env 0%nat drained_world
    = (Ok (PRef 0%nat), w')
    /\ req_url <$> net_log w' = [DEEPSEEK_API_URL; OPENROUTER_API_URL]
    /\ explanation <$> heap w' !! 0%nat = Some (PStr "Scales three numbers.").
Proof.
  destruct (chain_attempts_in_order cpython down_then_text_env 0%nat drained_world
              {| function := "scale"; file := "/app/backend/functions/sample.py";
                 inputs := [("x", PInt 1); ("y", PInt 2); ("c", PInt 3)];
                 output := PNone; code := source_unavailable;
                 start_time := "2025-11-04T07:25:30";
                 end_time := "2025-11-04T07:25:30.001000";
                 duration_ms := 1%float; explanation := PNone |}
              ltac:(vm_compute; reflexivity))
    as (w' & r & Hrun & Hlog & Hl & _).
  exists w'. split; [exact Hrun |]. split.
  - rewrite Hlog. reflexivity.
  - rewrite Hl. reflexivity.
Defined.

(** C6 as stated fails: DeepSeek's attempt succeeds, with status 200 and a
    well-formed body whose text is empty, yet OpenRouter is attempted as well
    and its text is the one used. *)
Lemma chain_attempts_counterexample :
  provider_result (http_post empty_then_text_env []
                     (deepseek_request empty_then_text_env
                        (prompt_of cpython drained_world 0%nat)))
  = PStr ""
  /\ req_url <$> net_log (snd (explain_single_trace cpython empty_then_text_env 0%nat
                                 drained_world))
     = [DEEPSEEK_API_URL; OPENROUTER_API_URL]
  /\ explanation <$>
       heap (snd (explain_single_trace cpython empty_then_text_env 0%nat
                    drained_world)) !! 0%nat
     = Some (PStr "Scales three numbers.").
Proof. repeat split; vm_compute; reflexivity. Qed.

Lemma effective_eq r1 r2 :
  effective r1 = effective r2 ->
  truthy (provider_result r1) = truthy (provider_result r2)
  /\ (truthy (provider_result r1) = true -> provider_result r1 = provider_result r2).
Proof.
  unfold effective.
  destruct (truthy (provider_result r1)) eqn:H1, (truthy (provider_result r2)) eqn:H2;
    intros Heq.
  - by split.
  - rewrite Heq in H1. done.
  - rewrite <- Heq in H2. done.
  - by split.
Qed.

Lemma effective_falsy r : truthy (provider_result r) = false -> effective r = PNone.
Proof. unfold effective. by intros ->. Qed.

Lemma no_text_falsy reply : no_text reply -> truthy (provider_result reply) = false.
Proof.
  intros [Hr | Hr]; [by rewrite Hr | by apply failed_reply_falsy].
Qed.

(** C10. An attempt that succeeds with the empty string as its text is
    treated exactly like one that fails.  After such an attempt at DeepSeek
    the chain posts to OpenRouter and keeps OpenRouter's text when that is
    truthy, the fallback text otherwise; after such an attempt at OpenRouter,
    DeepSeek having given nothing, it keeps the fallback text: in either
    case the result and the world are the same whether the text was empty or
    the attempt failed.  More generally both contribute no text, and two
    environments whose replies contribute the same texts lead
    [explain_single_trace] to the same result and the same world, requests
    included.  Whenever [explain_single_trace] returns, the explanation it
    stored is truthy, hence not the empty string. *)
Theorem empty_text_is_failure py env l w :
  (forall t p,
      heap w !! l = Some t ->
      prompt_text py (heap w) (PRef l) = Ok p ->
      let r := wrapper_record py (prompt_fn py env) (llm_file env) ["trace"] [PRef l] [] p
                 (now env (ticks w)) (now env (S (ticks w))) in
      let fallback := PStr (generate_fallback_explanation py (heap w ++ [r]) t) in
      let configured := negb (String.eqb (DEEPSEEK_API_KEY env) "") in
      let log1 :=
        if configured then net_log w ++ [deepseek_request env p] else net_log w in
      let reply1 := http_post env (net_log w) (deepseek_request env p) in
      let reply2 := http_post env log1 (openrouter_request p) in
      let outcome (e : pyval) (log : list request) : result pyval * world :=
        (Ok (PRef l),
         {| heap := alter (set_explanation e) l (heap w ++ [r]);
            TRACE := TRACE w ++ [length (heap w)];
            ticks := S (S (ticks w));
            net_log := log |}) in
      (configured = true -> no_text reply1 ->
       explain_single_trace py env l w
       = outcome (if truthy (provider_result reply2) then provider_result reply2
                  else fallback)
                 (net_log w ++ [deepseek_request env p; openrouter_request p]))
      /\ (configured = false \/ no_text reply1 -> no_text reply2 ->
          explain_single_trace py env l w
          = outcome fallback (log1 ++ [openrouter_request p])))
  /\ (forall env2,
        same_setup env env2 ->
        (forall log r, effective (http_post env log r) = effective (http_post env2 log r)) ->
        explain_single_trace py env l w = explain_single_trace py env2 l w)
  /\ (forall reply, provider_result reply = PStr "" -> effective reply = PNone)
  /\ (forall reply, failed_reply reply -> effective reply = PNone)
  /\ (forall v w', explain_single_trace py env l w = (Ok v, w') ->
        exists t e,
          heap w !! l = Some t
          /\ heap w' !! l = Some (set_explanation e t)
          /\ truthy e = true
          /\ e <> PStr "").
Proof.
  split; [| split; [| split; [| split]]].
  - intros t p Ht Hp. cbv zeta.
    pose proof (explain_single_trace_spec py env l w t p Ht Hp) as H. cbv zeta in H.
    split.
    + intros Hkey H1. rewrite H, Hkey. unfold chain_choice.
      rewrite (no_text_falsy _ H1), <- app_assoc. reflexivity.
    + intros H1 H2. rewrite H. unfold chain_choice.
      rewrite (no_text_falsy _ H2).
      destruct H1 as [Hkey | H1].
      * rewrite Hkey. reflexivity.
      * destruct (negb (String.eqb (DEEPSEEK_API_KEY env) "")).
        -- rewrite (no_text_falsy _ H1). reflexivity.
        -- reflexivity.
  - intros env2 (Hkey & Hnow & Hfile & Hsrc) Heff.
    destruct (prompt_text py (heap w) (PRef l)) as [p|e] eqn:Hp.
    2:{ by rewrite !(explain_single_trace_raises _ _ _ _ _ Hp). }
    destruct (heap w !! l) as [t|] eqn:Ht.
    2:{ unfold prompt_text in Hp. rewrite Ht in Hp. done. }
    rewrite (explain_single_trace_spec py env l w t p Ht Hp).
    rewrite (explain_single_trace_spec py env2 l w t p Ht Hp).
    cbv zeta.
    assert (wrapper_record py (prompt_fn py env) (llm_file env) ["trace"] [PRef l] [] p
              (now env (ticks w)) (now env (S (ticks w)))
            = wrapper_record py (prompt_fn py env2) (llm_file env2) ["trace"] [PRef l] [] p
                (now env2 (ticks w)) (now env2 (S (ticks w)))) as ->.
    { unfold wrapper_record. simpl. by rewrite Hnow, Hfile, Hsrc. }
    assert (deepseek_request env p = deepseek_request env2 p) as ->.
    { unfold deepseek_request. by rewrite Hkey. }
    rewrite Hkey.
    destruct (negb (String.eqb (DEEPSEEK_API_KEY env2) "")).
    + destruct (effective_eq _ _ (Heff (net_log w) (deepseek_request env2 p)))
        as [Ht1 Hv1].
      destruct (effective_eq _ _
                  (Heff (net_log w ++ [deepseek_request env2 p]) (openrouter_request p)))
        as [Ht2 Hv2].
      unfold chain_choice. rewrite <- Ht1, <- Ht2.
      destruct (truthy (provider_result (http_post env (net_log w) _))) eqn:E1.
      * by rewrite (Hv1 eq_refl).
      * destruct (truthy (provider_result (http_post env (net_log w ++ _) _))) eqn:E2.
        -- by rewrite (Hv2 eq_refl).
        -- done.
    + destruct (effective_eq _ _ (Heff (net_log w) (openrouter_request p)))
        as [Ht2 Hv2].
      unfold chain_choice. simpl. rewrite <- Ht2.
      destruct (truthy (provider_result (http_post env (net_log w) _))) eqn:E2.
      * by rewrite (Hv2 eq_refl).
      * done.
  - intros reply Hr. apply effective_falsy. by rewrite Hr.
  - intros reply Hr. by apply effective_falsy, failed_reply_falsy.
  - intros v w' Hrun.
    destruct (prompt_text py (heap w) (PRef l)) as [p|e] eqn:Hp.
    2:{ rewrite (explain_single_trace_raises _ _ _ _ _ Hp) in Hrun. done. }
    destruct (heap w !! l) as [t|] eqn:Ht.
    2:{ unfold prompt_text in Hp. rewrite Ht in Hp. done. }
    destruct (explain_single_trace_stores py env l w t p Ht Hp)
      as (w'' & e & r & Hrun' & Hl & Htruthy & _).
    rewrite Hrun' in Hrun. injection Hrun as <- <-.
    exists t, e. repeat split; try done. by apply truthy_not_empty.
Qed.

Lemma empty_text_is_failure_witness :
  exists w',
    explain_single_trace cpython empty_then_text_env 0%nat drained_world
    = (Ok (PRef 0%nat), w')
    /\ req_url <$> net_log w' = [DEEPSEEK_API_URL; OPENROUTER_API_URL]
    /\ explanation <$> heap w' !! 0%nat = Some (PStr "Scales three numbers.")
    /\ explain_single_trace cpython empty_then_text_env 0%nat drained_world
       = explain_single_trace cpython down_then_text_env 0%nat drained_world.
Proof.
  destruct (empty_text_is_failure cpython empty_then_text_env 0%nat drained_world)
    as (Hadvance & Hsame & _).
  destruct (Hadvance
              {| function := "scale"; file := "/app/backend/functions/sample.py";
                 inputs := [("x", PInt 1); ("y", PInt 2); ("c", PInt 3)];
                 output := PNone; code := source_unavailable;
                 start_time := "2025-11-04T07:25:30";
                 end_time := "2025-11-04T07:25:30.001000";
                 duration_ms := 1%float; explanation := PNone |}
              (prompt_of cpython drained_world 0%nat)
              ltac:(vm_compute; reflexivity) ltac:(vm_compute; reflexivity))
    as (Hrun & _).
  eexists. split; [exact (Hrun eq_refl (or_introl eq_refl)) |].
  split; [reflexivity |]. split; [vm_compute; reflexivity |].
  apply (Hsame down_then_text_env).
  - repeat split; reflexivity.
  - intros log r. unfold empty_then_text_env, down_then_text_env, keyed_env, two_hosts.
    simpl. destruct (String.eqb (req_url r) DEEPSEEK_API_URL); reflexivity.
Defined.

(** ** Values without references *)

Section pyval_induction.

Variable P : pyval -> Prop.
Hypothesis HNone : P PNone.
Hypothesis HBool : forall b, P (PBool b).
Hypothesis HInt : forall z, P (PInt z).
Hypothesis HFloat : forall f, P (PFloat f).
Hypothesis HStr : forall s, P (PStr s).
Hypothesis HList : forall l, Forall P l -> P (PList l).
Hypothesis HDict : forall kv, Forall (fun item => P (snd item)) kv -> P (PDict kv).
Hypothesis HObj : forall o, P (PObj o).
Hypothesis HRef : forall l, P (PRef l).

Fixpoint pyval_nested_ind (v : pyval) : P v :=
  match v with
  | PNone => HNone
  | PBool b => HBool b
  | PInt z => HInt z
  | PFloat f => HFloat f
  | PStr s => HStr s
  | PList l =>
      HList l ((fix go (l : list pyval) : Forall P l :=
                  match l with
                  | [] => @List.Forall_nil _ P
                  | x :: l' => @List.Forall_cons _ P x l' (pyval_nested_ind x) (go l')
                  end) l)
  | PDict kv =>
      HDict kv ((fix go (kv : list (string * pyval))
                   : Forall (fun item => P (snd item)) kv :=
                   match kv with
                   | [] => @List.Forall_nil _ _
                   | item :: kv' =>
                       @List.Forall_cons _ (fun item => P (snd item)) item kv'
                         (pyval_nested_ind (snd item)) (go kv')
                   end) kv)
  | PObj o => HObj o
  | PRef l => HRef l
  end.

End pyval_induction.

(** A value without references prints the same whatever the heap holds. *)
Lemma py_repr_with_no_refs py r1 r2 v :
  no_refs v = true -> py_repr_with py r1 v = py_repr_with py r2 v.
Proof.
  induction v as [| | | | |l IH|kv IH| |] using pyval_nested_ind; simpl; try done.
  - intros Hl. do 3 f_equal.
    induction IH as [|x l Hx _ IHl]; simpl in *; [done |].
    apply andb_prop in Hl as [H1 H2]. by rewrite Hx, IHl.
  - intros Hl. do 3 f_equal.
    induction IH as [|x l Hx _ IHl]; simpl in *; [done |].
    apply andb_prop in Hl as [H1 H2]. by rewrite Hx, IHl.
Qed.

Lemma py_str_no_refs py h1 h2 v :
  no_refs v = true -> py_str py h1 v = py_str py h2 v.
Proof.
  intros Hv. destruct v; simpl; try done;
    unfold py_repr; by apply py_repr_with_no_refs.
Qed.

Lemma plain_record_inputs t item :
  plain_record t = true -> item ∈ inputs t -> no_refs (snd item) = true.
Proof.
  unfold plain_record. intros H Hin. apply andb_prop in H as [H _].
  rewrite forallb_forall in H. apply H. by apply list_elem_of_In.
Qed.

Lemma plain_record_output t : plain_record t = true -> no_refs (output t) = true.
Proof. unfold plain_record. intros H. by apply andb_prop in H as [_ H]. Qed.

Lemma map_ext_elem {A B : Type} (f g : A -> B) (l : list A) :
  (forall x, x ∈ l -> f x = g x) -> map f l = map g l.
Proof.
  intros H. apply map_ext_in. intros x Hx. apply H. by apply list_elem_of_In.
Qed.

(** The fallback text of a plain record does not depend on the heap. *)
Lemma fallback_plain py h1 h2 t :
  plain_record t = true ->
  generate_fallback_explanation py h1 t = generate_fallback_explanation py h2 t.
Proof.
  intros Hp. unfold generate_fallback_explanation.
  rewrite (py_str_no_refs py h1 h2 (output t)) by (by apply plain_record_output).
  rewrite (map_ext_elem
             (fun item => fst item +:+ "=" +:+ py_str py h1 (snd item))
             (fun item => fst item +:+ "=" +:+ py_str py h2 (snd item))); [done |].
  intros item Hin. by rewrite (py_str_no_refs py h1 h2) by (by eapply plain_record_inputs).
Qed.

(** ** JSON data serialises *)

Lemma mapM_ok {A B : Type} (f : A -> result B) (l : list A) :
  Forall (fun x => exists y, f x = Ok y) l -> exists ys, mapM f l = Ok ys.
Proof.
  induction 1 as [|x l [y Hy] _ [ys Hys]]; simpl.
  - by exists [].
  - rewrite Hy, Hys. by eexists.
Qed.

Lemma json_with_data py ref_json indent v :
  json_data v = true ->
  forall level, exists s, json_with py ref_json indent level v = Ok s.
Proof.
  induction v as [| | | | |l IH|kv IH| |] using pyval_nested_ind; simpl;
    try (intros _ level; by eexists); try done.
  - intros Hl level.
    destruct (mapM_ok (json_with py ref_json indent (S level)) l) as [items Hi].
    { induction IH as [|x l Hx _ IHl]; simpl in *; [constructor |].
      apply andb_prop in Hl as [H1 H2]. constructor; [by apply Hx | by apply IHl]. }
    rewrite Hi. by eexists.
  - intros Hl level.
    destruct (mapM_ok
                (fun item =>
                   match json_with py ref_json indent (S level) (snd item) with
                   | Ok s => Ok (json_str py (fst item) +:+ ": " +:+ s)
                   | Raise e => Raise e
                   end) kv) as [items Hi].
    { induction IH as [|x l Hx _ IHl]; simpl in *; [constructor |].
      apply andb_prop in Hl as [H1 H2]. constructor; [| by apply IHl].
      destruct (Hx H1 (S level)) as [s Hs]. rewrite Hs. by eexists. }
    rewrite Hi. by eexists.
Qed.

(** The prompt of a record of JSON data always builds. *)
Lemma prompt_builds_for_json_data py h l t :
  h !! l = Some t ->
  forallb (fun item => json_data (snd item)) (inputs t) = true ->
  json_data (output t) = true ->
  exists p, prompt_text py h (PRef l) = Ok p.
Proof.
  intros Ht Hin Hout. unfold prompt_text. rewrite Ht.
  destruct (json_with_data py (ref_json_below py h (Some 2%nat) (length h)) (Some 2%nat)
              (PDict (inputs t)) Hin 0%nat) as [s1 H1].
  unfold json_dumps. rewrite H1.
  destruct (json_with_data py (ref_json_below py h None (length h)) None
              (output t) Hout 0%nat) as [s2 H2].
  destruct (output t); simpl in *; try discriminate;
    try (eexists; reflexivity); rewrite H2; eexists; reflexivity.
Qed.

(** ** The fallback pass *)

Lemma refresh_idem py t : refresh py (refresh py t) = refresh py t.
Proof. reflexivity. Qed.

Lemma explain_traces_sync_loop_plain py traces w :
  Forall (fun l => exists t, heap w !! l = Some t /\ plain_record t = true) traces ->
  explain_traces_sync_loop py traces w
  = (Ok tt, set_heap (foldl (fun h l => alter (refresh py) l h) (heap w) traces) w).
Proof.
  revert w. induction traces as [|l traces IH]; intros w Hall.
  - by destruct w.
  - apply Forall_cons in Hall as [(t & Ht & Hplain) Hall].
    assert (alter (set_explanation
                     (PStr (generate_fallback_explanation py (heap w) t))) l (heap w)
            = alter (refresh py) l (heap w)) as Halt.
    { apply list_alter_ext; [| done].
      intros t' Ht'. rewrite Ht in Ht'. injection Ht' as <-.
      unfold refresh. by rewrite (fallback_plain py (heap w) [] t). }
    simpl. unfold bind, fallback_of, store_explanation. rewrite Ht.
    rewrite IH.
    + unfold set_heap. simpl. by rewrite Halt.
    + eapply Forall_impl; [exact Hall |].
      intros l' (t' & Ht' & Hp'). simpl.
      destruct (decide (l = l')) as [<- | Hne].
      * rewrite list_lookup_alter_eq, Ht'. simpl. eexists. split; [done |]. exact Hp'.
      * rewrite list_lookup_alter_ne by done. eauto.
Qed.

Lemma lookup_refresh_pass py traces (h : list trace) l :
  foldl (fun h l => alter (refresh py) l h) h traces !! l
  = if bool_decide (l ∈ traces) then refresh py <$> h !! l else h !! l.
Proof.
  revert h. induction traces as [|a traces IH]; intros h; simpl; [done |].
  rewrite IH. destruct (decide (a = l)) as [-> | Hne].
  - rewrite list_lookup_alter_eq.
    rewrite (bool_decide_eq_true_2 (l ∈ l :: traces)) by (apply elem_of_cons; by left).
    case_bool_decide; [| done].
    destruct (h !! l); simpl; [by rewrite refresh_idem | done].
  - rewrite list_lookup_alter_ne by done.
    case_bool_decide as H1; case_bool_decide as H2; try done.
    + exfalso. apply H2. apply elem_of_cons. by right.
    + exfalso. apply elem_of_cons in H2 as [-> | H2]; done.
Qed.

(** C9, as the code has it.  On a batch of records whose inputs and output
    hold no reference to a trace dict, the fallback pass returns the batch,
    overwrites the explanation of each record of the batch with its fallback
    text and changes nothing else, and a second pass leaves everything as the
    first pass left it. *)
Theorem fallback_pass_idempotent py traces w :
  Forall (fun l => exists t, heap w !! l = Some t /\ plain_record t = true) traces ->
  exists w1,
    explain_traces_sync py traces w = (Ok traces, w1)
    /\ explain_traces_sync py traces w1 = (Ok traces, w1)
    /\ (forall l t, heap w !! l = Some t ->
          heap w1 !! l
          = Some (if bool_decide (l ∈ traces)
                  then set_explanation
                         (PStr (generate_fallback_explanation py (heap w) t)) t
                  else t))
    /\ w1 = set_heap (heap w1) w.
Proof.
  intros Hall.
  exists (set_heap (foldl (fun h l => alter (refresh py) l h) (heap w) traces) w).
  assert (forall l t, heap w !! l = Some t ->
            foldl (fun h l => alter (refresh py) l h) (heap w) traces !! l
            = Some (if bool_decide (l ∈ traces)
                    then set_explanation
                           (PStr (generate_fallback_explanation py (heap w) t)) t
                    else t)) as Hlook.
  { intros l t Ht. rewrite lookup_refresh_pass, Ht.
    case_bool_decide as Hin; [| done]. simpl. f_equal.
    rewrite Forall_forall in Hall. destruct (Hall l Hin) as (t' & Ht' & Hp).
    rewrite Ht in Ht'. injection Ht' as <-.
    unfold refresh. by rewrite (fallback_plain py (heap w) [] t). }
  split; [| split; [| split]].
  - unfold explain_traces_sync, bind. by rewrite explain_traces_sync_loop_plain.
  - unfold explain_traces_sync, bind. rewrite explain_traces_sync_loop_plain.
    + simpl. unfold set_heap. simpl. do 2 f_equal.
      apply list_eq. intros l. rewrite !lookup_refresh_pass.
      case_bool_decide; [| done].
      destruct (heap w !! l); simpl; [by rewrite refresh_idem | done].
    + rewrite Forall_forall in Hall |- *. intros l Hin.
      destruct (Hall l Hin) as (t & Ht & Hp). simpl.
      rewrite (Hlook l t Ht). rewrite bool_decide_eq_true_2 by done.
      eexists. split; [done |]. exact Hp.
  - exact Hlook.
  - reflexivity.
Qed.

Lemma fallback_pass_idempotent_witness :
  exists w1,
    explain_traces_sync cpython [0%nat; 1%nat]
      (snd (call_sequence cpython (sample_env unreachable) two_calls empty_world))
    = (Ok [0%nat; 1%nat], w1)
    /\ explain_traces_sync cpython [0%nat; 1%nat] w1 = (Ok [0%nat; 1%nat], w1).
Proof.
  destruct (fallback_pass_idempotent cpython [0%nat; 1%nat]
              (snd (call_sequence cpython (sample_env unreachable) two_calls empty_world))
              ltac:(repeat constructor; eexists; split; reflexivity))
    as (w1 & H1 & H2 & _).
  exists w1. split; [exact H1 | exact H2].
Defined.

(** C9 as stated fails on a batch in which a record refers to a later one.
    The record at 1 is that of the prompt-builder call on the dict at 0, so
    its input is the dict at 0 itself.  On the batch (1, 0) the first pass
    writes the fallback text of 1 while 0 is still unexplained, and the second
    pass writes a different text, in which the explanation of 0 appears. *)
Lemma fallback_pass_counterexample :
  inputs <$> heap prompted_world !! 1%nat = Some [("trace", PRef 0%nat)]
  /\ fst (explain_traces_sync cpython [1%nat; 0%nat] prompted_world)
     = Ok [1%nat; 0%nat]
  /\ fst (explain_traces_sync cpython [1%nat; 0%nat] once_explained)
     = Ok [1%nat; 0%nat]
  /\ String.eqb (explanation_text once_explained 1%nat)
                (explanation_text twice_explained 1%nat) = false
  /\ occurs "'explanation': None" (explanation_text once_explained 1%nat) = true
  /\ occurs "'explanation': None" (explanation_text twice_explained 1%nat) = false.
Proof. repeat split; vm_compute; reflexivity. Qed.

(** ** The report builder *)

Lemma report_entry_plain py h1 h2 i t :
  plain_record t = true -> report_entry py h1 i t = report_entry py h2 i t.
Proof.
  intros Hp. unfold report_entry.
  destruct (explanation t); try done.
  rewrite (py_str_no_refs py h1 h2 (output t)) by (by apply plain_record_output).
  rewrite (map_ext_elem
             (fun item => "       • " +:+ fst item +:+ ": " +:+ py_str py h1 (snd item))
             (fun item => "       • " +:+ fst item +:+ ": " +:+ py_str py h2 (snd item)));
    [done |].
  intros item Hin. by rewrite (py_str_no_refs py h1 h2) by (by eapply plain_record_inputs).
Qed.

Lemma report_loop_plain py h1 h2 ls1 ls2 i lines :
  Forall2 (fun l1 l2 => exists t, h1 !! l1 = Some t /\ h2 !! l2 = Some t
                                  /\ plain_record t = true) ls1 ls2 ->
  report_loop py h1 i ls1 lines = report_loop py h2 i ls2 lines.
Proof.
  intros Hall. revert i lines.
  induction Hall as [|l1 l2 ls1 ls2 (t & H1 & H2 & Hp) _ IH]; intros i lines; simpl;
    [done |].
  rewrite H1, H2, (report_entry_plain py h1 h2 i t Hp).
  destruct (report_entry py h2 i t); [apply IH | done].
Qed.

(** C8. The report is a function of the records it is given: two batches
    that list the same plain records, wherever these dicts live and whatever
    else the heaps hold, give the same text; and the report of the empty batch
    is the three header lines, an empty line and the three footer lines. *)
Theorem report_deterministic py h1 h2 ls1 ls2 :
  Forall2 (fun l1 l2 => exists t, h1 !! l1 = Some t /\ h2 !! l2 = Some t
                                  /\ plain_record t = true) ls1 ls2 ->
  build_explain_file py h1 ls1 = build_explain_file py h2 ls2
  /\ build_explain_file py h1 [] = Ok empty_report
  /\ build_explain_file py h2 [] = Ok empty_report.
Proof.
  intros Hall. split; [| split; reflexivity].
  unfold build_explain_file. by rewrite (report_loop_plain py h1 h2 ls1 ls2).
Qed.

Lemma report_deterministic_witness :
  build_explain_file cpython (heap explained_two) [0%nat; 1%nat]
  = build_explain_file cpython (heap explained_two_more) [0%nat; 1%nat]
  /\ is_ok (build_explain_file cpython (heap explained_two) [0%nat; 1%nat]) = true.
Proof.
  split; [| vm_compute; reflexivity].
  refine (proj1 (report_deterministic cpython (heap explained_two)
                   (heap explained_two_more) [0%nat; 1%nat] [0%nat; 1%nat] _)).
  repeat constructor; eexists; repeat split; reflexivity.
Defined.

(** * Further properties of explainx.py, llm.py and main.py *)

(** ** The chat about a report *)

(** X1. [chat_about_report] posts exactly one request, to OpenRouter, whether
    or not a DeepSeek key is set; it leaves the trace dicts, the store and the
    clock alone; and it returns the text of the reply when that is truthy and
    the apology otherwise, hence never None and never an empty string. *)
Theorem chat_asks_openrouter_once py env report_text query w :
  let req := openrouter_request (PStr (chat_prompt py (heap w) report_text query)) in
  let answer := provider_result (http_post env (net_log w) req) in
  chat_about_report py env report_text query w
  = (Ok (if truthy answer then answer else PStr chat_apology), posted req w)
  /\ req_url req = OPENROUTER_API_URL
  /\ String.eqb (req_url req) DEEPSEEK_API_URL = false
  /\ net_log (snd (chat_about_report py env report_text query w)) = net_log w ++ [req]
  /\ heap (snd (chat_about_report py env report_text query w)) = heap w
  /\ TRACE (snd (chat_about_report py env report_text query w)) = TRACE w
  /\ (forall v, fst (chat_about_report py env report_text query w) = Ok v ->
                truthy v = true).
Proof.
  cbv zeta.
  assert (chat_about_report py env report_text query w
          = (Ok (if truthy (provider_result
                              (http_post env (net_log w)
                                 (openrouter_request
                                    (PStr (chat_prompt py (heap w) report_text query)))))
                 then provider_result
                        (http_post env (net_log w)
                           (openrouter_request
                              (PStr (chat_prompt py (heap w) report_text query))))
                 else PStr chat_apology),
             posted (openrouter_request
                       (PStr (chat_prompt py (heap w) report_text query))) w)) as Hrun.
  { unfold chat_about_report, bind, call_openrouter. rewrite openrouter_key_set.
    unfold bind, client_post, ret. reflexivity. }
  rewrite Hrun. repeat split; try reflexivity.
  simpl. intros v [= <-].
  destruct (truthy (provider_result _)) eqn:Ht; [exact Ht | reflexivity].
Qed.

(** ** The report builder *)





Lemma report_loop_text py h i ls lines :
  Forall (fun l => exists t, h !! l = Some t /\ is_str (explanation t) = true) ls ->
  exists entries,
    report_loop py h i ls lines = Ok (lines ++ concat entries)
    /\ length entries = length ls
    /\ (forall k l t, ls !! k = Some l -> h !! l = Some t ->
          exists rest,
            entries !! k
            = Some (("[" +:+ pretty (i + k)%nat +:+ "] Function: " +:+ function t) :: rest)).
Proof.
  intros Hall. revert i lines.
  induction Hall as [|l ls (t & Ht & Hs) _ IH]; intros i lines.
  - exists []. simpl. rewrite app_nil_r. split; [done | split; [done |]].
    intros k l t Hk. inversion Hk.
  - simpl. rewrite Ht.
    destruct (explanation t) as [| | | |s| | | |] eqn:He; try done.
    unfold report_entry. rewrite He.
    match goal with |- context [report_loop py h (S i) ls (lines ++ ?e)] =>
      destruct (IH (S i) (lines ++ e)) as (entries & Hrun & Hlen & Hnum);
      exists (e :: entries) end.
    split; [| split].
    + rewrite Hrun, <- app_assoc. reflexivity.
    + simpl. by rewrite Hlen.
    + intros [|k] l' t' Hk Hl'; simpl in Hk.
      * injection Hk as <-. rewrite Ht in Hl'. injection Hl' as <-.
        rewrite Nat.add_0_r. by eexists.
      * destruct (Hnum k l' t' Hk Hl') as (rest & Hr).
        exists rest. replace (i + S k)%nat with (S i + k)%nat by lia. exact Hr.
Qed.

Lemma report_loop_no_text py h i ls lines l t :
  Forall (fun l => is_Some (h !! l)) ls ->
  l ∈ ls -> h !! l = Some t -> is_str (explanation t) = false ->
  report_loop py h i ls lines
  = Raise (Exn "AttributeError" "object has no attribute 'split'").
Proof.
  intros Hvalid Hin Ht Hs. revert i lines.
  induction Hvalid as [|l0 ls [t0 Ht0] _ IH]; intros i lines; [by inversion Hin |].
  simpl. rewrite Ht0. unfold report_entry.
  destruct (explanation t0) as [| | | |s| | | |] eqn:He; try done.
  apply IH. apply elem_of_cons in Hin as [-> | Hin]; [| done].
  rewrite Ht in Ht0. injection Ht0 as <-. rewrite He in Hs. done.
Qed.

(** X3. [build_explain_file] needs every record of the batch to have a
    string as explanation.  It then returns a text; and a batch with a record
    whose explanation is anything else, None in particular, makes it raise
    AttributeError: the default text of [trace.get] is never used, since the
    key is always there. *)
Theorem report_needs_text py h ls :
  Forall (fun l => is_Some (h !! l)) ls ->
  (Forall (fun l => exists t, h !! l = Some t /\ is_str (explanation t) = true) ls ->
   exists text, build_explain_file py h ls = Ok text)
  /\ (forall l t, l ∈ ls -> h !! l = Some t -> is_str (explanation t) = false ->
        build_explain_file py h ls
        = Raise (Exn "AttributeError" "object has no attribute 'split'")).
Proof.
  intros Hvalid. split.
  - intros Hall. unfold build_explain_file.
    destruct (report_loop_text py h 1 ls
                [rule "="; "ExplainX - Function Execution Report"; rule "="; ""] Hall)
      as (entries & Hrun & _). rewrite Hrun. by eexists.
  - intros l t Hin Ht Hs. unfold build_explain_file.
    by rewrite (report_loop_no_text py h 1 ls _ l t Hvalid Hin Ht Hs).
Qed.

Lemma report_needs_text_witness :
  build_explain_file cpython (heap one_call_world) [0%nat]
  = Raise (Exn "AttributeError" "object has no attribute 'split'").
Proof.
  refine (proj2 (report_needs_text cpython (heap one_call_world) [0%nat] _)
            0%nat _ _ eq_refl eq_refl).
  - repeat constructor. by eexists.
  - by apply elem_of_cons; left.
Defined.

(** X4. The report of a batch of explained records is the header, one entry
    per record in batch order, and the footer, joined with newlines; the
    entry of the k-th record starts with its number, counted from 1, and the
    name of its function. *)
Theorem report_structure py h ls :
  Forall (fun l => exists t, h !! l = Some t /\ is_str (explanation t) = true) ls ->
  exists entries,
    build_explain_file py h ls
    = Ok (join nl (report_header ++ concat entries ++ report_footer))
    /\ length entries = length ls
    /\ (forall k l t, ls !! k = Some l -> h !! l = Some t ->
          exists rest,
            entries !! k
            = Some (("[" +:+ pretty (S k) +:+ "] Function: " +:+ function t) :: rest)).
Proof.
  intros Hall. unfold build_explain_file.
  destruct (report_loop_text py h 1 ls
              [rule "="; "ExplainX - Function Execution Report"; rule "="; ""] Hall)
    as (entries & Hrun & Hlen & Hnum).
  exists entries. rewrite Hrun. split; [| split; [done |]].
  - unfold report_header, report_footer. by rewrite <- app_assoc.
  - intros k l t Hk Hl. destruct (Hnum k l t Hk Hl) as (rest & Hr). by exists rest.
Qed.

Lemma report_structure_witness :
  exists entries,
    build_explain_file cpython (heap explained_two) [0%nat; 1%nat]
    = Ok (join nl (report_header ++ concat entries ++ report_footer))
    /\ length entries = 2%nat.
Proof.
  destruct (report_structure cpython (heap explained_two) [0%nat; 1%nat]
              ltac:(repeat constructor; eexists; split; reflexivity))
    as (entries & H1 & H2 & _).
  exists entries. split; [exact H1 | exact H2].
Defined.

(** X5. [inspect.getfile] is called after the callable has run, inside the
    dict display of line 55.  When it raises (for a built-in), the wrapped
    call raises that exception although the callable returned: the
    callable's effects stay, its result is lost, and no record is
    appended. *)
Theorem wrapper_without_file py env fn args kwargs w params e res w2 :
  fn_params fn = Ok params ->
  fn_file fn = Raise e ->
  fn_call fn args kwargs (tick w) = (Ok res, w2) ->
  exists w',
    wrapper py env fn args kwargs w = (Raise e, w')
    /\ heap w' = heap w2 /\ TRACE w' = TRACE w2 /\ net_log w' = net_log w2.
Proof.
  intros Hp Hf Hc. rewrite wrapper_unfold, Hp, Hc, Hf.
  by exists (tick w2).
Qed.

Lemma wrapper_without_file_witness :
  exists w',
    wrapper cpython (sample_env unreachable) builtin_len_fn [PStr "abc"] [] one_call_world
    = (Raise (Exn "TypeError"
                "module, class, method, function, traceback, frame, or code object was expected, got builtin_function_or_method"),
       w')
    /\ heap w' = heap one_call_world /\ TRACE w' = TRACE one_call_world
    /\ net_log w' = net_log one_call_world.
Proof.
  exact (wrapper_without_file cpython (sample_env unreachable) builtin_len_fn
           [PStr "abc"] [] one_call_world ["obj"] _ (PInt 3) (tick one_call_world)
           eq_refl eq_refl eq_refl).
Defined.

(** ** Records are changed in their explanation only *)

Lemma set_explanation_twice e e' t :
  set_explanation e' (set_explanation e t) = set_explanation e' t.
Proof. by destruct t. Qed.

Lemma set_explanation_same t : set_explanation (explanation t) t = t.
Proof. by destruct t. Qed.

Lemma kept_refl w : kept w w.
Proof. intros l t Ht. exists (explanation t). by rewrite set_explanation_same. Qed.

Lemma kept_trans w1 w2 w3 : kept w1 w2 -> kept w2 w3 -> kept w1 w3.
Proof.
  intros H12 H23 l t Ht.
  destruct (H12 l t Ht) as [e He]. destruct (H23 l _ He) as [e' He'].
  exists e'. by rewrite He', set_explanation_twice.
Qed.

Lemma kept_heap_eq w w' : heap w' = heap w -> kept w w'.
Proof. intros Hh l t Ht. rewrite Hh. by apply kept_refl. Qed.

Lemma kept_push t w : kept w (push t w).
Proof.
  intros l t' Ht'. exists (explanation t'). rewrite set_explanation_same.
  unfold push. simpl. rewrite lookup_app_l; [done | by eapply lookup_lt_Some].
Qed.

Lemma kept_explained l e w : kept w (explained l e w).
Proof.
  intros l' t Ht. unfold explained. simpl.
  destruct (decide (l = l')) as [-> | Hne].
  - exists e. rewrite list_lookup_alter_eq, Ht. reflexivity.
  - exists (explanation t). rewrite list_lookup_alter_ne by done.
    by rewrite set_explanation_same.
Qed.

Lemma wrapper_kept py env fn args kwargs w :
  keeps_records fn -> kept w (snd (wrapper py env fn args kwargs w)).
Proof.
  intros Hfn. rewrite wrapper_unfold.
  destruct (fn_params fn) as [params|e]; [| by apply kept_heap_eq].
  specialize (Hfn args kwargs (tick w)).
  destruct (fn_call fn args kwargs (tick w)) as [[res|e] w2]; simpl in *.
  - assert (kept w w2) as Hw2.
    { eapply kept_trans; [| exact Hfn]. by apply kept_heap_eq. }
    destruct (fn_file fn) as [f|e]; simpl.
    + eapply kept_trans; [exact Hw2 |].
      eapply kept_trans; [| apply kept_push]. by apply kept_heap_eq.
    + eapply kept_trans; [exact Hw2 |]. by apply kept_heap_eq.
  - eapply kept_trans; [| exact Hfn]. by apply kept_heap_eq.
Qed.

Lemma store_neutral_keeps fn : store_neutral fn -> keeps_records fn.
Proof. intros Hfn args kwargs w. apply kept_heap_eq. apply Hfn. Qed.

Lemma generate_explanation_prompt_kept py env tr w :
  kept w (snd (generate_explanation_prompt py env tr w)).
Proof.
  rewrite generate_explanation_prompt_unfold.
  destruct (prompt_text py (heap w) tr); simpl.
  - eapply kept_trans; [| apply kept_push]. by apply kept_heap_eq.
  - by apply kept_heap_eq.
Qed.

Lemma prompt_text_dangling py h l :
  h !! l = None -> exists e, prompt_text py h (PRef l) = Raise e.
Proof.
  intros Hl. unfold prompt_text. simpl. rewrite Hl. by eexists.
Qed.

Lemma kept_heaps w1 w1' w2 w2' :
  heap w1 = heap w1' -> heap w2 = heap w2' -> kept w1 w2 -> kept w1' w2'.
Proof. unfold kept. intros <- <-. done. Qed.

Lemma explain_single_trace_kept py env l w :
  kept w (snd (explain_single_trace py env l w)).
Proof.
  destruct (prompt_text py (heap w) (PRef l)) as [p|e] eqn:Hp.
  - destruct (heap w !! l) as [t|] eqn:Ht.
    + rewrite (explain_single_trace_spec py env l w t p Ht Hp). cbv zeta.
      match goal with
      | |- kept w (snd (_, {| heap := alter (set_explanation ?e) l (heap w ++ [?r]);
                              TRACE := _; ticks := _; net_log := _ |})) =>
          apply kept_trans with (push r w); [apply kept_push |];
          apply (kept_heaps (push r w) _ (explained l e (push r w)) _ eq_refl eq_refl);
          apply kept_explained
      end.
    + destruct (prompt_text_dangling py (heap w) l Ht) as [e He]. congruence.
  - rewrite (explain_single_trace_raises py env l w e Hp). by apply kept_heap_eq.
Qed.

Lemma explain_traces_from_kept py env ls acc w :
  kept w (snd (explain_traces_from py env ls acc w)).
Proof.
  revert acc w. induction ls as [|l ls IH]; intros acc w; simpl.
  - apply kept_refl.
  - unfold bind. pose proof (explain_single_trace_kept py env l w) as Hk.
    destruct (explain_single_trace py env l w) as [[v|e] w1]; simpl in *.
    + eapply kept_trans; [exact Hk | apply IH].
    + exact Hk.
Qed.

Lemma explain_traces_sync_loop_kept py ls w :
  kept w (snd (explain_traces_sync_loop py ls w)).
Proof.
  revert w. induction ls as [|l ls IH]; intros w; simpl.
  - apply kept_refl.
  - unfold bind, fallback_of, store_explanation.
    destruct (heap w !! l) as [t|]; simpl.
    + eapply kept_trans; [apply (kept_explained l) | apply IH].
    + apply kept_refl.
Qed.

Lemma chat_about_report_heap py env report_text query w :
  heap (snd (chat_about_report py env report_text query w)) = heap w.
Proof.
  unfold chat_about_report, bind, call_openrouter.
  rewrite openrouter_key_set. unfold bind, client_post, ret. simpl. reflexivity.
Qed.

Lemma run_op_kept py env o w : op_keeps_records o -> kept w (run_op py env o w).
Proof.
  destruct o; intros Ho; unfold run_op.
  - by apply wrapper_kept.
  - by apply kept_heap_eq.
  - by apply kept_heap_eq.
  - by apply kept_heap_eq.
  - apply generate_explanation_prompt_kept.
  - apply explain_single_trace_kept.
  - apply explain_traces_from_kept.
  - unfold explain_traces_sync, bind.
    pose proof (explain_traces_sync_loop_kept py ls w) as Hk.
    destruct (explain_traces_sync_loop py ls w) as [[[]|e] w1]; exact Hk.
  - apply kept_heap_eq. exact (chat_about_report_heap py env report_text query w).
Qed.

(** X6. Whatever is done with the tracer and the explainer (instrumented
    calls, reading, popping and clearing the store, building prompts,
    explaining one trace or a batch by either pass, chatting), and whether it
    returns or raises, no trace dict once recorded is removed or changed in
    any field but its explanation.  The callables called must themselves
    keep to that; they may make instrumented calls of their own. *)
Theorem records_change_in_explanation_only py env ops w l t :
  Forall op_keeps_records ops ->
  heap w !! l = Some t ->
  exists e, heap (run_ops py env ops w) !! l = Some (set_explanation e t).
Proof.
  intros Hops. revert w t.
  induction Hops as [|o ops Ho _ IH]; intros w t Ht; simpl.
  - exists (explanation t). by rewrite set_explanation_same.
  - destruct (run_op_kept py env o w Ho l t Ht) as [e He].
    destruct (IH _ _ He) as [e' He']. exists e'.
    by rewrite set_explanation_twice in He'.
Qed.

Lemma records_change_in_explanation_only_witness :
  exists t e,
    heap one_call_world !! 0%nat = Some t
    /\ heap (run_ops cpython (sample_env unreachable)
               [OpCall {| callee := nesting_fn cpython (sample_env unreachable);
                          call_args := [PInt 5]; call_kwargs := [] |};
                OpExplain 0%nat; OpPop; OpExplainSync [0%nat; 1%nat]; OpClear]
               one_call_world) !! 0%nat
       = Some (set_explanation e t).
Proof.
  assert (keeps_records (nesting_fn cpython (sample_env unreachable))) as Hfn.
  { intros args kwargs w. simpl.
    destruct args as [|x [|y args]]; [apply kept_refl | | apply kept_refl].
    apply wrapper_kept, store_neutral_keeps, named_fn_neutral. }
  eexists. 
  refine (let H := records_change_in_explanation_only cpython (sample_env unreachable)
                     [OpCall {| callee := nesting_fn cpython (sample_env unreachable);
                                call_args := [PInt 5]; call_kwargs := [] |};
                      OpExplain 0%nat; OpPop; OpExplainSync [0%nat; 1%nat]; OpClear]
                     one_call_world 0%nat _ _ eq_refl in _).
  destruct H as [e He]. exists e. split; [reflexivity | exact He].
  Unshelve. repeat constructor. exact Hfn.
Defined.
